(** * xpublish: the Zarr-style REST accessor of [xpublish/rest.py]

    A shallow embedding of the metadata extractor, the coordinate resolver,
    the codec invoker and the request handlers of [RestAccessor], with the
    properties the specification states about them.

    Conventions of the embedding:
    - Python [int] is [Z]; [str] is [string] (ASCII); [bytes] is a list of
      byte values; [dict]s keyed by strings are [gmap string _].
    - A call that may raise returns a [result]; the exception classes are
      the Python ones the source raises ([KeyError], [ValueError], ...).
    - Calls into collaborators (codecs, the array engine) are recorded in a
      trace of events, so that the order of the calls can be stated. *)

From Stdlib Require Import ZArith Ascii String List Lia.
From stdpp Require Import base option list strings gmap fin_maps.

Local Open Scope Z_scope.
Local Open Scope string_scope.
Local Open Scope list_scope.

(** ** Exceptions and fallible computations *)

Inductive exn : Type :=
  | KeyError (key : string)         (* a failed [d[key]] lookup *)
  | ValueError (literal : string)   (* [int(literal)] on a malformed literal *)
  | IndexError                      (* [c[0]] on an empty sequence *)
  | RuntimeError (msg : string)     (* raised by [_encode_chunk] itself *)
  | Foreign (origin : string)       (* whatever a collaborator raises *)
  | AttributeError (attr : string). (* a failed access to an attribute *)

Inductive result (A : Type) : Type :=
  | Ok (a : A)
  | Raise (e : exn).
Arguments Ok {A} a.
Arguments Raise {A} e.

Definition rbind {A B} (r : result A) (k : A → result B) : result B :=
  match r with
  | Ok a => k a
  | Raise e => Raise e
  end.

Declare Scope result_scope.
Delimit Scope result_scope with result.
Notation "'let?' x ':=' r 'in' k" := (rbind r (fun x => k))
  (at level 10, x pattern, r at level 100, k at level 200) : result_scope.
Local Open Scope result_scope.

(** [tuple(f(x) for x in xs)]: elements are evaluated left to right and the
    first exception aborts the construction. *)
Fixpoint traverse {A B} (f : A → result B) (xs : list A) : result (list B) :=
  match xs with
  | [] => Ok []
  | x :: xs' =>
      let? y := f x in
      let? ys := traverse f xs' in
      Ok (y :: ys)
  end.

(** The error names of the specification, as classes of Python exceptions. *)
Definition MalformedCoordinate (e : exn) : Prop := ∃ tok, e = ValueError tok.
Definition UnknownVariable (e : exn) : Prop := ∃ key, e = KeyError key.
Definition object_codec_msg : string :=
  "cannot write object array without object codec".
Definition UnencodableElementKind (e : exn) : Prop :=
  e = RuntimeError object_codec_msg.

(** ** Python string primitives used by the resolver *)

(** [s.split(sep)] for a one-character separator: always at least one
    token, one more than the number of separators. *)
Fixpoint str_split (sep : ascii) (s : string) : list string :=
  match s with
  | EmptyString => [EmptyString]
  | String c s' =>
      if Ascii.eqb c sep then EmptyString :: str_split sep s'
      else match str_split sep s' with
           | tok :: rest => String c tok :: rest
           | [] => [String c EmptyString]
           end
  end.

(** [sep.join(toks)] *)
Fixpoint str_join (sep : ascii) (toks : list string) : string :=
  match toks with
  | [] => EmptyString
  | [tok] => tok
  | tok :: rest => tok +:+ String sep (str_join sep rest)
  end.

Definition is_space (c : ascii) : bool :=
  let n := nat_of_ascii c in
  ((9 <=? n)%nat && (n <=? 13)%nat) || (n =? 32)%nat.

Definition digit_value (c : ascii) : option Z :=
  let n := nat_of_ascii c in
  if ((48 <=? n)%nat && (n <=? 57)%nat) then Some (Z.of_nat n - 48) else None.

Fixpoint skip_spaces (s : string) : string :=
  match s with
  | String c s' => if is_space c then skip_spaces s' else s
  | EmptyString => s
  end.

Inductive scan_state : Type := AtStart | AfterDigit | AfterUnderscore.

(** The digit scanner of [int(str)] in base ten: decimal digits, with single
    underscores allowed between two digits.  Returns the value read and the
    unread rest. *)
Fixpoint scan_digits (st : scan_state) (acc : Z) (s : string)
  : option (Z * string) :=
  let stop :=
    match st with AfterDigit => Some (acc, s) | _ => None end in
  match s with
  | EmptyString => stop
  | String c s' =>
      match digit_value c with
      | Some d => scan_digits AfterDigit (10 * acc + d) s'
      | None =>
          if Ascii.eqb c "_"%char then
            match st with
            | AfterDigit => scan_digits AfterUnderscore acc s'
            | _ => None
            end
          else stop
      end
  end.

(** An optional leading sign. *)
Definition split_sign (s : string) : Z * string :=
  match s with
  | String c r =>
      if Ascii.eqb c "+"%char then (1, r)
      else if Ascii.eqb c "-"%char then (-1, r)
      else (1, s)
  | EmptyString => (1, s)
  end.

(** [int(s)] for an ASCII [str]: optional surrounding whitespace, an optional
    sign, then the digits.  [None] stands for the [ValueError]. *)
Definition py_int (s : string) : option Z :=
  let '(sign, s2) := split_sign (skip_spaces s) in
  match scan_digits AtStart 0 s2 with
  | Some (v, rest) =>
      match skip_spaces rest with
      | EmptyString => Some (sign * v)
      | _ => None
      end
  | None => None
  end.

Definition int (s : string) : result Z :=
  match py_int s with
  | Some z => Ok z
  | None => Raise (ValueError s)
  end.

(** ** The coordinate resolver *)

(** A Python [slice(start, stop)] object (the step is [None]). *)
Record slice : Type := Slice { start : Z; stop : Z }.

Definition slice_axis (key chunk_size : Z) : slice :=
  Slice (key * chunk_size) ((key + 1) * chunk_size).

(** [zip(ikeys, chunks)] is stdpp's [zip]: it stops at the shorter of the
    two lists. *)
Definition get_indexers (key : string) (chunks : list Z) : result (list slice) :=
  let ikeys := str_split "."%char key in
  traverse (fun '(i, c) => let? n := int i in Ok (slice_axis n c))
           (zip ikeys chunks).

(** ** Buffers, codecs and the trace of collaborator calls *)

(** A dtype is identified by its [.str] descriptor; the object dtype is
    ["|O"]. *)
Definition object_dtype : string := "|O".
Definition uint8_dtype : string := "|u1".

(** What flows through the codec pipeline: [bytes], or an [ndarray] a filter
    handed back. *)
Inductive buffer : Type :=
  | Bytes (raw : list Byte.byte)
  | Ndarray (dt : string) (raw : list Byte.byte).

(** [ensure_ndarray(chunk).dtype] *)
Definition ensure_ndarray_dtype (chunk : buffer) : string :=
  match chunk with
  | Bytes _ => uint8_dtype
  | Ndarray dt _ => dt
  end.

Definition is_object_kind (chunk : buffer) : bool :=
  String.eqb (ensure_ndarray_dtype chunk) object_dtype.

(** A numcodecs codec: only its [encode] is used.  [None] stands for an
    exception raised inside the codec. *)
Record Codec : Type := {
  codec_id : string;
  encode : buffer → option buffer
}.

Inductive event : Type :=
  | EvEncode (codec : string) (input : buffer)     (* [codec.encode(input)] *)
  | EvGetitem (var : string) (index : list slice)  (* [da.data[index]] *)
  | EvCompute (var : string)                       (* [data_chunk.compute()] *)
  | EvBuildMetadata.                  (* a run of [RestAccessor.get_zmetadata] *)

(** A computation that calls collaborators: the calls made, in order, and
    the outcome. *)
Definition traced (A : Type) : Type := list event * result A.

Definition tret {A} (a : A) : traced A := ([], Ok a).
Definition traise {A} (e : exn) : traced A := ([], Raise e).
Definition tlift {A} (r : result A) : traced A := ([], r).
Definition emit (ev : event) : traced unit := ([ev], Ok tt).

Definition tbind {A B} (m : traced A) (k : A → traced B) : traced B :=
  match m with
  | (tr, Ok a) => let '(tr', r) := k a in (tr ++ tr', r)
  | (tr, Raise e) => (tr, Raise e)
  end.

Declare Scope traced_scope.
Delimit Scope traced_scope with traced.
Notation "'let!' x ':=' m 'in' k" := (tbind m (fun x => k))
  (at level 10, x pattern, m at level 100, k at level 200) : traced_scope.
Local Open Scope traced_scope.

Definition codec_encode (c : Codec) (chunk : buffer) : traced buffer :=
  ([EvEncode (codec_id c) chunk],
   match encode c chunk with
   | Some out => Ok out
   | None => Raise (Foreign (codec_id c))
   end).

(** ** The codec invoker *)

(** [for f in filters: chunk = f.encode(chunk)] *)
Fixpoint apply_filters (filters : list Codec) (chunk : buffer) : traced buffer :=
  match filters with
  | [] => tret chunk
  | f :: rest =>
      let! chunk := codec_encode f chunk in
      apply_filters rest chunk
  end.

(** Truth value of [filters]: [None] and the empty list are false. *)
Definition truthy {A} (o : option (list A)) : bool :=
  match o with
  | Some (_ :: _) => true
  | _ => false
  end.

Definition _encode_chunk (chunk : buffer) (filters : option (list Codec))
    (compressor : option Codec) : traced buffer :=
  let! chunk :=
    if truthy filters then apply_filters (default [] filters) chunk
    else tret chunk in
  let! _ :=
    if is_object_kind chunk then traise (RuntimeError object_codec_msg)
    else tret tt in
  let! cdata :=
    match compressor with
    | Some c => codec_encode c chunk
    | None => tret chunk
    end in
  tret cdata.

(** ** The data model *)

(** Attribute values and JSON-shaped values. *)
#[local] Set Warnings "-register-all".
Inductive PyVal : Type :=
  | VNone
  | VInt (z : Z)
  | VStr (s : string)
  | VList (items : list PyVal)
  | VNpScalar (item : PyVal)     (* an [np.generic], with its [.item()] *)
  | VNdarray (tolist : PyVal).   (* an [np.ndarray], with its [.tolist()] *)

(** [d.get(key, default)], on the outcome [entry] of looking [key] up. *)
Definition dict_get {A} (entry : option A) (default : A) : A :=
  match entry with
  | Some v => v
  | None => default
  end.

(** An encoding dict, restricted to the three keys the source reads.  A
    field is [None] when the key is absent and [Some None] when the key is
    present with the value [None]. *)
Module Encoding.
Record t : Type := mk {
  compressor : option (option Codec);
  filters : option (option (list Codec));
  chunks : option (option (list Z))
}.
(** The empty dict [{}]. *)
Definition empty : t := mk None None None.
End Encoding.

(** What [da.data[index]] evaluates to: a numpy array (given by its
    [tobytes()]) or a dask array (given by what [compute()] yields, [None]
    when the computation raises). *)
Inductive array : Type :=
  | NumpyArray (tobytes : list Byte.byte)
  | DaskArray (computed : option (list Byte.byte)).

(** An xarray variable, through the attributes the source reads. *)
Module DataArray.
Record t : Type := mk {
  attrs : gmap string PyVal;
  dims : list string;
  shape : list Z;
  (** [None], or the block sizes along every dimension *)
  chunks : option (list (list Z));
  (** [da.dtype.str] *)
  dtype : string;
  encoding : Encoding.t;
  (** [da.data[index]]; [None] when the array engine raises *)
  data : list slice → option array
}.
End DataArray.

Module Dataset.
Record t : Type := mk {
  variables : gmap string DataArray.t;
  attrs : gmap string PyVal;
  (** what [ds[name]] does for a name that is not in [ds.variables]:
      xarray's [_get_virtual_variable] builds a variable for a dimension
      without coordinate or for a name "<variable>.<attribute>", and raises
      otherwise: [KeyError] for a name it cannot resolve, and whatever the
      attribute access raises *)
  virtual : string → result DataArray.t
}.
End Dataset.

(** The ".zarray" record of one variable. *)
Module ZArray.
Record t : Type := mk {
  compressor : option Codec;
  filters : option (list Codec);
  chunks : list Z;
  dtype : string;
  fill_value : PyVal;
  order : string;
  shape : list Z;
  zarr_format : Z
}.
End ZArray.

(** The records stored under the paths of the consolidated document. *)
Inductive record : Type :=
  | Attrs (zattrs : gmap string PyVal)
  | Group (zgroup : gmap string Z)
  | Array (zarray : ZArray.t).

Module ZMetadata.
Record t : Type := mk {
  zarr_consolidated_format : Z;
  metadata : gmap string record
}.
End ZMetadata.

(** Module-level constants of [rest.py], and those it imports from zarr and
    xarray. *)
Definition zarr_format : Z := 2.
Definition zarr_consolidated_format : Z := 1.
Definition zarr_metadata_key : string := ".zmetadata".
Definition array_meta_key : string := ".zarray".
Definition attrs_key : string := ".zattrs".
Definition group_meta_key : string := ".zgroup".
Definition _DIMENSION_KEY : string := "_ARRAY_DIMENSIONS".

(** [zarr.util.normalize_shape] on a tuple of integers: [int(s)] of each. *)
Definition normalize_shape (shape : list Z) : list Z :=
  (λ s, s) <$> shape.

(** ** The metadata extractor *)

(** [c[0]] *)
Definition first_item (c : list Z) : result Z :=
  match c with
  | x :: _ => Ok x
  | [] => Raise IndexError
  end.

Definition extract_zarray (da : DataArray.t) (encoding : Encoding.t)
  : result ZArray.t :=
  let compressor :=
    dict_get (Encoding.compressor encoding)
      (dict_get (Encoding.compressor (DataArray.encoding da)) None) in
  let filters :=
    dict_get (Encoding.filters encoding)
      (dict_get (Encoding.filters (DataArray.encoding da)) None) in
  let chunks := dict_get (Encoding.chunks encoding) None in
  let shape := normalize_shape (DataArray.shape da) in
  let? chunks :=
    match chunks with
    | Some cs => Ok cs
    | None =>
        match DataArray.chunks da with
        | Some blocks => traverse first_item blocks
        | None => Ok (DataArray.shape da)
        end
    end in
  Ok (ZArray.mk compressor filters chunks (DataArray.dtype da) VNone "C"
        shape zarr_format).

Section Accessor.

(** [xarray.backends.zarr._encode_zarr_attr_value], the canonicalizing
    encoder of attribute values. *)
Variable _encode_zarr_attr_value : PyVal → PyVal.

(** [for k, v in attrs.items(): zattrs[k] = _encode_zarr_attr_value(v)] *)
Definition encode_attrs (attrs : gmap string PyVal) : gmap string PyVal :=
  map_fold (λ k v zattrs, <[k := _encode_zarr_attr_value v]> zattrs) ∅ attrs.

Definition extract_zattrs (da : DataArray.t) : gmap string PyVal :=
  let zattrs := encode_attrs (DataArray.attrs da) in
  <[_DIMENSION_KEY := VList (VStr <$> DataArray.dims da)]> zattrs.

(** The accessor object: [self._obj], [self._name], [self._encoding] and
    [self._metadata]. *)
Record RestAccessor : Type := {
  _obj : Dataset.t;
  _name : string;
  _encoding : gmap string Encoding.t;
  _metadata : ZMetadata.t
}.

Definition get_zgroup : gmap string Z := {[ "zarr_format" := zarr_format ]}.

Definition get_zattrs (obj : Dataset.t) : gmap string PyVal :=
  encode_attrs (Dataset.attrs obj).

(** The loop of [get_zmetadata] over [self._obj.variables.items()]. *)
Fixpoint zmetadata_loop (items : list (string * DataArray.t))
    (encoding : gmap string Encoding.t) (metadata : gmap string record)
  : result (gmap string record) :=
  match items with
  | [] => Ok metadata
  | (key, da) :: rest =>
      let metadata :=
        <[key +:+ "/" +:+ attrs_key := Attrs (extract_zattrs da)]> metadata in
      let? zarray :=
        extract_zarray da (dict_get (encoding !! key) Encoding.empty) in
      let metadata :=
        <[key +:+ "/" +:+ array_meta_key := Array zarray]> metadata in
      zmetadata_loop rest encoding metadata
  end.

(** The document before the loop over the variables: the dataset's own
    ".zattrs" and ".zgroup". *)
Definition initial_metadata (obj : Dataset.t) : gmap string record :=
  <[group_meta_key := Group get_zgroup]>
    (<[attrs_key := Attrs (get_zattrs obj)]> ∅).

Definition get_zmetadata (obj : Dataset.t)
    (encoding : gmap string Encoding.t) : traced ZMetadata.t :=
  let! _ := emit EvBuildMetadata in
  let metadata : gmap string record := ∅ in
  let metadata := <[attrs_key := Attrs (get_zattrs obj)]> metadata in
  let metadata := <[group_meta_key := Group get_zgroup]> metadata in
  let! metadata :=
    tlift (zmetadata_loop (map_to_list (Dataset.variables obj)) encoding
             metadata) in
  tret (ZMetadata.mk zarr_consolidated_format metadata).

(** [RestAccessor.__init__]; [make_app] only installs the handlers
    below. *)
Definition __init__ (xarray_obj : Dataset.t) (name : option string)
    (encoding : option (gmap string Encoding.t)) : traced RestAccessor :=
  let name := dict_get name "<Dataset rest app>" in
  let encoding := dict_get encoding ∅ in
  let! metadata := get_zmetadata xarray_obj encoding in
  tret {| _obj := xarray_obj; _name := name; _encoding := encoding;
          _metadata := metadata |}.

(** *** The request handlers *)

Inductive request : Type :=
  | GetZgroup
  | GetZattrs
  | GetZmetadata
  | ListKeys
  | GetKey (var chunk : string).

Inductive response : Type :=
  | JsonGroup (zgroup : gmap string Z)
  | JsonAttrs (zattrs : gmap string PyVal)
  | JsonMetadata (zmeta : ZMetadata.t)
  | JsonKeys (keys : list string)
  | Response (content : buffer) (media_type : string).

(** [self._obj[var]]: the variable of that name or, for another name,
    what xarray makes of it. *)
Definition getitem_var (obj : Dataset.t) (var : string) : result DataArray.t :=
  match Dataset.variables obj !! var with
  | Some da => Ok da
  | None => Dataset.virtual obj var
  end.

(** [self._metadata["metadata"][path]], read as a ".zarray" record. *)
Definition getitem_arr_meta (zmeta : ZMetadata.t) (path : string)
  : result ZArray.t :=
  match ZMetadata.metadata zmeta !! path with
  | Some (Array zarray) => Ok zarray
  | Some _ => Raise (KeyError "chunks")
  | None => Raise (KeyError path)
  end.

(** [da.data[index]] *)
Definition getitem_data (var : string) (da : DataArray.t)
    (index : list slice) : traced array :=
  ([EvGetitem var index],
   match DataArray.data da index with
   | Some a => Ok a
   | None => Raise (Foreign "data")
   end).

(** [if isinstance(data_chunk, dask_array_type): data_chunk.compute()],
    followed by [tobytes()]. *)
Definition materialize (var : string) (data_chunk : array)
  : traced (list Byte.byte) :=
  match data_chunk with
  | NumpyArray raw => tret raw
  | DaskArray computed =>
      ([EvCompute var],
       match computed with
       | Some raw => Ok raw
       | None => Raise (Foreign "compute")
       end)
  end.

(** [Response(echunk, media_type='application/octet-stream')]: starlette
    takes [bytes] as the body and calls [.encode] on anything else, which an
    array does not have. *)
Definition make_response (echunk : buffer) : result response :=
  match echunk with
  | Bytes _ => Ok (Response echunk "application/octet-stream")
  | Ndarray _ _ => Raise (AttributeError "encode")
  end.

Definition get_key (self : RestAccessor) (var chunk : string)
  : traced response :=
  let! da := tlift (getitem_var (_obj self) var) in
  let! arr_meta :=
    tlift (getitem_arr_meta (_metadata self)
             (var +:+ "/" +:+ array_meta_key)) in
  let! index := tlift (get_indexers chunk (ZArray.chunks arr_meta)) in
  let! data_chunk := getitem_data var da index in
  let! raw := materialize var data_chunk in
  let! echunk :=
    _encode_chunk (Bytes raw) (ZArray.filters arr_meta)
      (ZArray.compressor arr_meta) in
  tlift (make_response echunk).

(** The application built by [make_app]: one handler per route.  No
    handler assigns to [self]; the accessor is threaded through to make
    that explicit. *)
Definition handle (self : RestAccessor) (req : request)
  : RestAccessor * traced response :=
  match req with
  | GetZgroup => (self, tret (JsonGroup get_zgroup))
  | GetZattrs => (self, tret (JsonAttrs (get_zattrs (_obj self))))
  | GetZmetadata => (self, tret (JsonMetadata (_metadata self)))
  | ListKeys =>
      (self, tret (JsonKeys (map_to_list (Dataset.variables (_obj self))).*1))
  | GetKey var chunk => (self, get_key self var chunk)
  end.

(** Serving a sequence of requests, one after the other. *)
Fixpoint serve (self : RestAccessor) (reqs : list request)
  : RestAccessor * list (traced response) :=
  match reqs with
  | [] => (self, [])
  | req :: rest =>
      let '(self, out) := handle self req in
      let '(self, outs) := serve self rest in
      (self, out :: outs)
  end.

End Accessor.

(** * Notions used in the statements *)

(** The value of a string of decimal digits, read left to right; [None] if
    some character is not a digit. *)
Fixpoint decimal_value (acc : Z) (s : string) : option Z :=
  match s with
  | EmptyString => Some acc
  | String c s' =>
      match digit_value c with
      | Some d => decimal_value (10 * acc + d) s'
      | None => None
      end
  end.

(** [tok] is the non-negative integer [i], written in decimal. *)
Definition nat_literal (tok : string) (i : Z) : Prop :=
  tok ≠ EmptyString ∧ decimal_value 0 tok = Some i.

(** The chunk sizes the variable's own chunking declares: the size of the
    first block along every dimension. *)
Definition native_chunks (da : DataArray.t) : option (list Z) :=
  match DataArray.chunks da with
  | Some blocks => Some ((λ c, hd 0 c) <$> blocks)
  | None => None
  end.

(** The precedence of the specification: explicit override, else the
    variable's own chunking, else the full shape. *)
Definition resolved_chunks (override native : option (list Z))
    (shape : list Z) : list Z :=
  match override, native with
  | Some cs, _ => cs
  | None, Some cs => cs
  | None, None => shape
  end.

(** Along every dimension of a chunked variable there is at least one
    block. *)
Definition blocks_nonempty (da : DataArray.t) : Prop :=
  ∀ blocks, DataArray.chunks da = Some blocks → Forall (λ c, c ≠ []) blocks.

(** [filter_chain filters chunk tr out]: the filters are applied in the
    declared order, each one to the output of the one before it; [tr] lists
    the calls and [out] is the output of the last filter. *)
Inductive filter_chain : list Codec → buffer → list event → buffer → Prop :=
  | chain_done chunk : filter_chain [] chunk [] chunk
  | chain_step f rest chunk mid tr out :
      encode f chunk = Some mid →
      filter_chain rest mid tr out →
      filter_chain (f :: rest) chunk (EvEncode (codec_id f) chunk :: tr) out.

(** The paths of the two records of a variable, [f"{key}/{attrs_key}"] and
    [f"{key}/{array_meta_key}"]. *)
Definition attrs_path (key : string) : string := key +:+ "/" +:+ attrs_key.
Definition array_path (key : string) : string := key +:+ "/" +:+ array_meta_key.

(** Is the event a run of [RestAccessor.get_zmetadata]? *)
Definition is_build (ev : event) : bool :=
  match ev with
  | EvBuildMetadata => true
  | _ => false
  end.

(** How many times [RestAccessor.get_zmetadata] ran in a trace. *)
Fixpoint build_count (tr : list event) : nat :=
  match tr with
  | [] => 0
  | ev :: tr' => ((if is_build ev then 1 else 0) + build_count tr')%nat
  end.

(** The [chunks] the encoding overrides give for a variable, if any:
    [encoding.get(key, {}).get("chunks", None)]. *)
Definition override_chunks (encoding : gmap string Encoding.t) (key : string)
  : option (list Z) :=
  dict_get (Encoding.chunks (dict_get (encoding !! key) Encoding.empty)) None.

(** A variable as xarray builds it: one dimension name per axis and, when
    chunked, at least one block along each axis. *)
Definition well_formed (da : DataArray.t) : Prop :=
  length (DataArray.dims da) = length (DataArray.shape da) ∧
  ∀ blocks, DataArray.chunks da = Some blocks →
    length blocks = length (DataArray.shape da) ∧ Forall (λ c, c ≠ []) blocks.

(** xarray's encoder: [tolist()] of an ndarray, [item()] of a numpy scalar,
    any other value as it is. *)
Definition encode_zarr_attr_value (value : PyVal) : PyVal :=
  match value with
  | VNdarray encoded => encoded
  | VNpScalar encoded => encoded
  | _ => value
  end.

(** Slicing as numpy does it, for the arrays of the scenarios.
    [clip i n] is a bound of [slice.indices(n)]: counted from the end when
    negative, and clipped to [[0, n]]. *)
Definition clip (i n : Z) : Z :=
  if (i <? 0)%Z then Z.max 0 (i + n) else Z.min i n.

Definition slice_len (s : slice) (n : Z) : Z :=
  Z.max 0 (clip (stop s) n - clip (start s) n).

(** The number of elements of [a[index]] for an array of that shape: an
    axis without a slice is taken whole, and more slices than axes are an
    [IndexError] ([None]). *)
Fixpoint selected (index : list slice) (shape : list Z) : option Z :=
  match index, shape with
  | [], _ => Some (fold_right Z.mul 1 shape)
  | _ :: _, [] => None
  | s :: index', n :: shape' =>
      match selected index' shape' with
      | Some k => Some (slice_len s n * k)
      | None => None
      end
  end.

(** [tobytes()] of [a[index]] for [a = np.zeros(shape)] with items of
    [itemsize] bytes. *)
Definition zeros_bytes (shape : list Z) (itemsize : Z) (index : list slice)
  : option (list Byte.byte) :=
  match selected index shape with
  | Some k => Some (replicate (Z.to_nat (k * itemsize)) Byte.x00)
  | None => None
  end.

(** [np.zeros(shape)[index]] *)
Definition zeros (shape : list Z) (itemsize : Z) (index : list slice)
  : option array :=
  match zeros_bytes shape itemsize index with
  | Some raw => Some (NumpyArray raw)
  | None => None
  end.

(** [dask.array.zeros(shape)[index]] *)
Definition dask_zeros (shape : list Z) (itemsize : Z) (index : list slice)
  : option array :=
  match zeros_bytes shape itemsize index with
  | Some raw => Some (DaskArray (Some raw))
  | None => None
  end.

(** The variable of the specification's scenario: shape [4 × 4], 8-byte
    floats, attribute [units = "m"], not chunked; its values are zeros. *)
Definition plain_da : DataArray.t :=
  DataArray.mk {[ "units" := VStr "m" ]} ["x"; "y"] [4; 4] None "<f8"
    Encoding.empty (zeros [4; 4] 8).

(** The index xarray makes up for a dimension of size four that has no
    coordinate: [range(4)] as 8-byte integers. *)
Definition range4_da (dim : string) : DataArray.t :=
  DataArray.mk ∅ [dim] [4] None "<i8" Encoding.empty
    (λ index,
       match index with
       | [] => Some (NumpyArray (mjoin ((λ k, k :: replicate 7 Byte.x00)
                 <$> [Byte.x00; Byte.x01; Byte.x02; Byte.x03])))
       | [s] =>
           Some (NumpyArray (mjoin ((λ k, k :: replicate 7 Byte.x00)
             <$> take (Z.to_nat (slice_len s 4))
                   (drop (Z.to_nat (clip (start s) 4))
                      [Byte.x00; Byte.x01; Byte.x02; Byte.x03]))))
       | _ => None
       end).

(** What xarray makes of a name that is not a variable of [plain_ds]: its
    dimensions "x" and "y" have no coordinate and get an index; in
    "v.<attribute>" the part after the dot is looked up on the variable "v"
    (here for attributes the variable does not have); the part before the
    first dot of any other name is an unknown variable. *)
Definition plain_virtual (name : string) : result DataArray.t :=
  if bool_decide (name = "x" ∨ name = "y") then Ok (range4_da name)
  else match str_split "." name with
       | "v" :: attr :: more =>
           Raise (AttributeError (str_join "." (attr :: more)))
       | ref_name :: _ => Raise (KeyError ref_name)
       | [] => Raise (KeyError name)
       end.

Definition plain_ds : Dataset.t :=
  Dataset.mk {[ "v" := plain_da ]} ∅ plain_virtual.

(** An override whose [chunks] has one entry for the two dimensions. *)
Definition short_chunks : gmap string Encoding.t :=
  {[ "v" := Encoding.mk None None (Some (Some [2])) ]}.

(** A variable of shape [4 × 4] held in dask blocks of [2 × 2]. *)
Definition chunked_da : DataArray.t :=
  DataArray.mk {[ "units" := VStr "m" ]} ["x"; "y"] [4; 4]
    (Some [[2; 2]; [2; 2]]) "<f8" Encoding.empty
    (dask_zeros [4; 4] 8).

(** Requests served after the registration of the scenario's dataset. *)
Definition some_requests : list request :=
  [GetZmetadata; GetKey "v" "0.0"; GetZattrs; GetKey "w" "0"; GetZmetadata].

(** A variable one of whose attributes is named like the reserved key. *)
Definition shadowing_da : DataArray.t :=
  DataArray.mk {[ "units" := VStr "m"; _DIMENSION_KEY := VStr "time" ]}
    ["x"; "y"] [4; 4] None "<f8" Encoding.empty (zeros [4; 4] 8).

(** A codec that appends one byte to what it is given. *)
Definition appending (name : string) (b : Byte.byte) : Codec :=
  {| codec_id := name;
     encode := λ chunk,
       match chunk with
       | Bytes raw => Some (Bytes (raw ++ [b]))
       | Ndarray dt raw => Some (Ndarray dt (raw ++ [b]))
       end |}.

(** A filter that hands back an array of Python objects. *)
Definition as_objects : Codec :=
  {| codec_id := "as_objects";
     encode := λ chunk,
       match chunk with
       | Bytes raw | Ndarray _ raw => Some (Ndarray object_dtype raw)
       end |}.

(** The override of the specification's scenario: chunks of [2 × 2]. *)
Definition square_chunks : Encoding.t :=
  Encoding.mk None None (Some (Some [2; 2])).

(** A variable whose own encoding names a compressor and a filter. *)
Definition compressed_da : DataArray.t :=
  DataArray.mk ∅ ["x"] [4] None "<i4"
    (Encoding.mk (Some (Some (appending "z" Byte.x03)))
       (Some (Some [appending "f1" Byte.x01])) None)
    (zeros [4] 4).

(** An override that sets the compressor to [None]. *)
Definition no_compressor : Encoding.t := Encoding.mk (Some None) None None.

(** The record of [compressed_da] under that override. *)
Definition compressed_meta : ZArray.t :=
  ZArray.mk None (Some [appending "f1" Byte.x01]) [4] "<i4" VNone "C" [4] 2.

(** The accessor the registration of [plain_ds] builds, without overrides. *)
Definition plain_accessor : RestAccessor :=
  {| _obj := plain_ds;
     _name := "<Dataset rest app>";
     _encoding := ∅;
     _metadata :=
       ZMetadata.mk 1
         (<[ "v/.zarray" :=
               Array (ZArray.mk None None [4; 4] "<f8" VNone "C" [4; 4] 2) ]>
         (<[ "v/.zattrs" :=
               Attrs {[ "units" := VStr "m";
                        "_ARRAY_DIMENSIONS" := VList [VStr "x"; VStr "y"] ]} ]>
         (<[ ".zgroup" := Group {[ "zarr_format" := 2 ]} ]>
         (<[ ".zattrs" := Attrs ∅ ]> ∅)))) |}.

(** A codec whose [encode] raises. *)
Definition refusing : Codec :=
  {| codec_id := "refusing"; encode := λ _, None |}.

(** A filter that packs whatever it is given into bytes. *)
Definition as_bytes : Codec :=
  {| codec_id := "as_bytes";
     encode := λ chunk,
       match chunk with
       | Bytes raw | Ndarray _ raw => Some (Bytes raw)
       end |}.

(** The codecs [_encode_chunk] is to run, in order: the filters, then the
    compressor. *)
Definition pipeline (filters : option (list Codec))
    (compressor : option Codec) : list Codec :=
  default [] filters ++ match compressor with Some c => [c] | None => [] end.

(** The event is a call to the [encode] of that codec. *)
Definition call_of (ev : event) (c : Codec) : Prop :=
  ∃ input, ev = EvEncode (codec_id c) input.

(** A filter that hands back a numeric array. *)
Definition as_array : Codec :=
  {| codec_id := "as_array";
     encode := λ chunk,
       match chunk with
       | Bytes raw | Ndarray _ raw => Some (Ndarray "<f8" raw)
       end |}.

(** * Properties *)

(** ** The result monad *)

Lemma traverse_length {A B} (f : A → result B) xs ys :
  traverse f xs = Ok ys → length ys = length xs.
Proof.
  revert ys. induction xs as [|x xs IH]; intros ys; simpl.
  - intros [= <-]. reflexivity.
  - destruct (f x) as [y|e]; simpl; [|discriminate].
    destruct (traverse f xs) as [ys'|e]; simpl; [|discriminate].
    intros [= <-]. simpl. f_equal. apply IH. reflexivity.
Qed.

Lemma traverse_raise_iff {A B} (f : A → result B) xs :
  (∃ e, traverse f xs = Raise e) ↔ ∃ x, x ∈ xs ∧ ∃ e, f x = Raise e.
Proof.
  induction xs as [|x xs IH]; simpl.
  - split; [intros [e ?]; discriminate | intros (x & Hx & _)].
    by apply elem_of_nil in Hx.
  - split.
    + intros [e He]. destruct (f x) as [y|e'] eqn:Hfx; simpl in He.
      * destruct (traverse f xs) as [ys|e'']; simpl in He; [discriminate|].
        destruct (proj1 IH) as (x' & Hx' & Hr); [by eexists|].
        exists x'. split; [apply elem_of_cons; by right | done].
      * exists x. split; [apply elem_of_cons; by left | by eexists].
    + intros (x' & Hx' & e & He). apply elem_of_cons in Hx' as [->|Hx'].
      * rewrite He. simpl. by eexists.
      * destruct (f x) as [y|e']; simpl; [|by eexists].
        destruct (proj2 IH) as [e'' ->]; [by eauto|]. simpl. by eexists.
Qed.

Lemma traverse_raise_from {A B} (f : A → result B) xs e :
  traverse f xs = Raise e → ∃ x, x ∈ xs ∧ f x = Raise e.
Proof.
  induction xs as [|x xs IH]; simpl; [discriminate|].
  destruct (f x) as [y|e'] eqn:Hfx; simpl.
  - destruct (traverse f xs) as [ys|e'']; simpl; [discriminate|].
    intros [= ->]. destruct IH as (x' & ? & ?); [done|].
    exists x'. split; [apply elem_of_cons; by right | done].
  - intros [= ->]. exists x. split; [apply elem_of_cons; by left | done].
Qed.

(** ** Tokens paired by [zip] *)

Lemma elem_of_zip_take {A B} (xs : list A) (ys : list B) x :
  (∃ y, (x, y) ∈ zip xs ys) ↔ x ∈ take (length ys) xs.
Proof.
  revert ys. induction xs as [|x0 xs IH]; intros [|y0 ys]; simpl.
  - split; [intros [y Hy]; by apply elem_of_nil in Hy | by intros ?%elem_of_nil].
  - split; [intros [y Hy]; by apply elem_of_nil in Hy | by intros ?%elem_of_nil].
  - split; [intros [y Hy]; by apply elem_of_nil in Hy | by intros ?%elem_of_nil].
  - rewrite elem_of_cons, <- IH. split.
    + intros [y [[= -> ->]|Hy]%elem_of_cons]; [by left | right; eauto].
    + intros [->|[y Hy]]; [exists y0; apply elem_of_cons; by left|].
      exists y. apply elem_of_cons. by right.
Qed.

(** ** The coordinate resolver *)

Lemma int_raise tok e : int tok = Raise e → e = ValueError tok ∧ py_int tok = None.
Proof. unfold int. destruct (py_int tok); [discriminate|]. by intros [= <-]. Qed.

Lemma resolve_pair_raise_iff (p : string * Z) :
  (∃ e, (let '(i, c) := p in let? n := int i in Ok (slice_axis n c)) = Raise e)
  ↔ py_int p.1 = None.
Proof.
  destruct p as [i c]. unfold int. simpl.
  destruct (py_int i); simpl; split; try done.
  - intros [e ?]. discriminate.
  - intros _. by eexists.
Qed.

(** C1 (as the code has it): [get_indexers] raises only the [ValueError] of
    [int] (MalformedCoordinate), and it does so exactly when one of the
    tokens that [zip] pairs with a chunk size, i.e. one of the first
    [len(chunks)] tokens, is not a literal [int] accepts.  The number of
    tokens is not compared with [len(chunks)]: on success there are as many
    ranges as the shorter of the two. *)
Theorem get_indexers_fails_iff (key : string) (chunks : list Z) :
  (∀ e, get_indexers key chunks = Raise e → MalformedCoordinate e) ∧
  ((∃ e, get_indexers key chunks = Raise e) ↔
   ∃ tok, tok ∈ take (length chunks) (str_split "." key) ∧ py_int tok = None) ∧
  (∀ index, get_indexers key chunks = Ok index →
     length index = min (length (str_split "." key)) (length chunks)).
Proof.
  unfold get_indexers. split; [|split].
  - intros e He. apply traverse_raise_from in He as ([i c] & _ & He).
    destruct (int i) as [n|e'] eqn:Hi; simpl in He; [discriminate|].
    injection He as <-. apply int_raise in Hi as [-> _]. by exists i.
  - rewrite traverse_raise_iff. split.
    + intros ([i c] & Hin & He). apply (resolve_pair_raise_iff (i, c)) in He.
      exists i. split; [|done]. apply elem_of_zip_take. by exists c.
    + intros (tok & Hin & Hnone). apply elem_of_zip_take in Hin as [c Hin].
      exists (tok, c). split; [done|]. by apply (resolve_pair_raise_iff (tok, c)).
  - intros index Hok. apply traverse_length in Hok. rewrite Hok.
    apply length_zip_with.
Qed.

(** C1, counterexample: three tokens against two chunk sizes, and a negative
    token: both are resolved without an error. *)
Lemma get_indexers_accepts_mismatch :
  length (str_split "." "0.0.0") ≠ length [2; 2] ∧
  get_indexers "0.0.0" [2; 2] = Ok [Slice 0 2; Slice 0 2] ∧
  get_indexers "-1" [2] = Ok [Slice (-2) 0].
Proof. split; [by vm_compute | split; reflexivity]. Qed.

(** *** Non-negative integer tokens *)

Lemma digit_not_special c d :
  digit_value c = Some d →
  is_space c = false ∧ Ascii.eqb c "+" = false ∧ Ascii.eqb c "-" = false
  ∧ Ascii.eqb c "." = false ∧ (0 ≤ d ≤ 9)%Z.
Proof.
  destruct c as [[] [] [] [] [] [] [] []]; vm_compute; try discriminate;
    intros [= <-]; repeat split; discriminate.
Qed.

Lemma decimal_value_nonneg s : ∀ acc v,
  (0 ≤ acc)%Z → decimal_value acc s = Some v → (0 ≤ v)%Z.
Proof.
  induction s as [|c s IH]; simpl; intros acc v Hacc.
  - intros [= <-]. done.
  - destruct (digit_value c) as [d|] eqn:Hd; [|discriminate].
    apply digit_not_special in Hd as (_ & _ & _ & _ & Hd).
    apply IH. lia.
Qed.

Lemma nat_literal_nonneg tok i : nat_literal tok i → (0 ≤ i)%Z.
Proof. intros [_ Hv]. by eapply decimal_value_nonneg. Qed.

Lemma scan_digits_decimal s : ∀ st acc v,
  decimal_value acc s = Some v →
  s ≠ EmptyString ∨ st = AfterDigit →
  scan_digits st acc s = Some (v, EmptyString).
Proof.
  induction s as [|c s IH]; simpl; intros st acc v Hv Hne.
  - destruct Hne as [ | -> ]; [done|]. by injection Hv as <-.
  - destruct (digit_value c) as [d|]; [|discriminate].
    apply IH; [done | by right].
Qed.

Lemma py_int_nat_literal tok i : nat_literal tok i → py_int tok = Some i.
Proof.
  intros [Hne Hv]. destruct tok as [|c s]; [done|].
  unfold py_int. simpl in Hv |- *.
  destruct (digit_value c) as [d|] eqn:Hd; [|discriminate].
  destruct (digit_not_special _ _ Hd) as (-> & Hp & Hm & _ & _).
  unfold split_sign. rewrite Hp, Hm. simpl. rewrite Hd.
  rewrite (scan_digits_decimal s AfterDigit _ i); [|done|by right].
  simpl. f_equal. lia.
Qed.

(** A token made of digits holds no separator, so splitting a joined
    coordinate gives the tokens back. *)
Lemma str_split_digits_end tok acc v :
  decimal_value acc tok = Some v → str_split "." tok = [tok].
Proof.
  revert acc. induction tok as [|c s IH]; simpl; intros acc Hv; [done|].
  destruct (digit_value c) as [d|] eqn:Hd; [|discriminate].
  destruct (digit_not_special _ _ Hd) as (_ & _ & _ & -> & _).
  by rewrite (IH _ Hv).
Qed.

Lemma str_split_digits_app tok acc v rest :
  decimal_value acc tok = Some v →
  str_split "." (tok +:+ String "." rest) = tok :: str_split "." rest.
Proof.
  revert acc. induction tok as [|c s IH]; simpl; intros acc Hv; [done|].
  destruct (digit_value c) as [d|] eqn:Hd; [|discriminate].
  destruct (digit_not_special _ _ Hd) as (_ & _ & _ & -> & _).
  by rewrite (IH _ Hv).
Qed.

Lemma str_split_join toks is_ :
  Forall2 nat_literal toks is_ → toks ≠ [] →
  str_split "." (str_join "." toks) = toks.
Proof.
  induction 1 as [|tok i toks is_ [_ Hv] Hrest IH]; [done|]. intros _.
  destruct Hrest as [|tok' i' toks' is' Htok' Hrest']; simpl.
  - by eapply str_split_digits_end.
  - erewrite str_split_digits_app by done. f_equal. by apply IH.
Qed.

Lemma resolve_nat_literals toks is_ :
  Forall2 nat_literal toks is_ → ∀ chunks : list Z,
  traverse (fun '(i, c) => let? n := int i in Ok (slice_axis n c))
    (zip toks chunks) = Ok (zip_with slice_axis is_ chunks).
Proof.
  induction 1 as [|tok i toks is_ Htok _ IH]; intros [|c chunks]; simpl; try done.
  unfold int. rewrite (py_int_nat_literal _ _ Htok). simpl.
  unfold zip in IH. by rewrite IH.
Qed.

(** C2: for a coordinate string ["i0.i1.…"] of non-negative integer tokens
    and a chunk-size vector of the same length, [get_indexers] returns one
    range per axis, and the range on axis [k] is exactly
    [[ik*ck, (ik+1)*ck)].  The resolver is not given the shape of the array:
    nothing is checked against it. *)
Theorem get_indexers_ranges (toks : list string) (is_ chunks : list Z) :
  Forall2 nat_literal toks is_ →
  length chunks = length toks →
  ∃ index,
    get_indexers (str_join "." toks) chunks = Ok index ∧
    length index = length chunks ∧
    ∀ (k : nat) (ik ck : Z),
      is_ !! k = Some ik → chunks !! k = Some ck →
      index !! k = Some {| start := ik * ck; stop := (ik + 1) * ck |}.
Proof.
  intros Hlit Hlen. exists (zip_with slice_axis is_ chunks).
  split; [|split].
  - unfold get_indexers. destruct toks as [|tok toks].
    + destruct chunks; [|done]. by inversion Hlit.
    + rewrite (str_split_join _ _ Hlit) by done.
      by apply resolve_nat_literals.
  - apply length_zip_with_r_eq. rewrite Hlen.
    by eapply Forall2_length.
  - intros k ik ck Hi Hc. rewrite lookup_zip_with, Hi. simpl. by rewrite Hc.
Qed.

Lemma get_indexers_ranges_witness :
  ∃ index,
    get_indexers (str_join "." ["1"; "02"]) [2; 3] = Ok index ∧
    length index = length [2; 3] ∧
    ∀ (k : nat) (ik ck : Z),
      [1; 2] !! k = Some ik → [2; 3] !! k = Some ck →
      index !! k = Some {| start := ik * ck; stop := (ik + 1) * ck |}.
Proof.
  apply (get_indexers_ranges ["1"; "02"] [1; 2] [2; 3]).
  - repeat constructor; by vm_compute.
  - reflexivity.
Defined.

(** The scenario of the specification: chunk ["5.5"] of a [4 × 4] array in
    [2 × 2] chunks resolves to ranges beyond the shape. *)
Example get_indexers_out_of_bounds :
  get_indexers "5.5" [2; 2] = Ok [Slice 10 12; Slice 10 12].
Proof. reflexivity. Qed.

(** ** The metadata extractor: chunks *)

Lemma normalize_shape_id shape : normalize_shape shape = shape.
Proof. unfold normalize_shape. apply list_fmap_id. Qed.

Lemma traverse_first_item blocks :
  Forall (λ c, c ≠ []) blocks →
  traverse first_item blocks = Ok ((λ c, hd 0 c) <$> blocks).
Proof.
  induction 1 as [|c blocks Hc _ IH]; simpl; [done|].
  destruct c as [|x c]; [done|]. simpl. by rewrite IH.
Qed.

(** C3: the [chunks] of the produced record are the override's if it has
    some, else the variable's native chunking if it is chunked, else the
    shape; with neither, [chunks] equals [shape]. *)
Theorem extract_zarray_chunks (da : DataArray.t) (encoding : Encoding.t) :
  blocks_nonempty da →
  ∃ meta,
    extract_zarray da encoding = Ok meta ∧
    ZArray.chunks meta =
      resolved_chunks (dict_get (Encoding.chunks encoding) None)
        (native_chunks da) (DataArray.shape da) ∧
    (dict_get (Encoding.chunks encoding) None = None →
     DataArray.chunks da = None →
     ZArray.chunks meta = ZArray.shape meta).
Proof.
  intros Hne. unfold extract_zarray, native_chunks.
  destruct (dict_get (Encoding.chunks encoding) None) as [cs|]; simpl.
  - eexists. split; [reflexivity|]. split; [done|]. discriminate.
  - destruct (DataArray.chunks da) as [blocks|] eqn:Hb; simpl.
    + rewrite traverse_first_item by by apply Hne. simpl.
      eexists. split; [reflexivity|]. split; [done|]. discriminate.
    + eexists. split; [reflexivity|]. split; [done|].
      intros _ _. simpl. by rewrite normalize_shape_id.
Qed.

Lemma extract_zarray_chunks_witness :
  ∃ meta,
    extract_zarray chunked_da Encoding.empty = Ok meta ∧
    ZArray.chunks meta =
      resolved_chunks (dict_get (Encoding.chunks Encoding.empty) None)
        (native_chunks chunked_da) (DataArray.shape chunked_da) ∧
    (dict_get (Encoding.chunks Encoding.empty) None = None →
     DataArray.chunks chunked_da = None →
     ZArray.chunks meta = ZArray.shape meta).
Proof.
  apply (extract_zarray_chunks chunked_da Encoding.empty).
  intros blocks [= <-]. repeat constructor; discriminate.
Defined.

(** ** The codec invoker *)

Lemma apply_filters_ok filters : ∀ chunk tr out,
  apply_filters filters chunk = (tr, Ok out) ↔ filter_chain filters chunk tr out.
Proof.
  induction filters as [|f rest IH]; intros chunk tr out; simpl.
  - split; [intros [= <- <-]; constructor | by inversion 1].
  - unfold codec_encode. split.
    + destruct (encode f chunk) as [mid|] eqn:Hf; simpl; [|discriminate].
      destruct (apply_filters rest mid) as [tr' r] eqn:Hrest.
      intros [= <- ->]. econstructor; [done|]. by apply IH.
    + inversion 1 as [|? ? ? mid tr' ? Hf Hrest]; subst.
      rewrite Hf. simpl. apply IH in Hrest. by rewrite Hrest.
Qed.

Lemma apply_filters_raise filters : ∀ chunk tr e,
  apply_filters filters chunk = (tr, Raise e) → ∃ origin, e = Foreign origin.
Proof.
  induction filters as [|f rest IH]; intros chunk tr e; simpl; [discriminate|].
  unfold codec_encode. destruct (encode f chunk) as [mid|]; simpl.
  - destruct (apply_filters rest mid) as [tr' r] eqn:Hrest.
    intros [= <- ->]. by eapply IH.
  - intros [= <- <-]. by eexists.
Qed.

Lemma filters_guard (filters : option (list Codec)) chunk :
  (if truthy filters then apply_filters (default [] filters) chunk
   else tret chunk) = apply_filters (default [] filters) chunk.
Proof. by destruct filters as [[|f rest]|]. Qed.

(** The three stages of [_encode_chunk], one after the other. *)
Lemma encode_chunk_stages chunk filters compressor :
  _encode_chunk chunk filters compressor =
  match apply_filters (default [] filters) chunk with
  | (tr, Ok mid) =>
      if is_object_kind mid then (tr, Raise (RuntimeError object_codec_msg))
      else match compressor with
           | Some c =>
               (tr ++ [EvEncode (codec_id c) mid],
                match encode c mid with
                | Some out => Ok out
                | None => Raise (Foreign (codec_id c))
                end)
           | None => (tr, Ok mid)
           end
  | (tr, Raise e) => (tr, Raise e)
  end.
Proof.
  unfold _encode_chunk. rewrite filters_guard.
  destruct (apply_filters (default [] filters) chunk) as [tr [mid|e]]; simpl;
    [|done].
  destruct (is_object_kind mid); simpl; [by rewrite app_nil_r|].
  destruct compressor as [c|]; simpl; [|by rewrite app_nil_r].
  unfold codec_encode. by destruct (encode c mid).
Qed.

(** C4: [_encode_chunk] returns [out] exactly when the filters, applied in
    the declared order and each to the previous output, give a buffer [mid]
    that passes the object check, and [out] is what the compressor makes of
    [mid], or [mid] itself when there is no compressor.  The trace shows the
    filter calls first and the compressor call last. *)
Theorem encode_chunk_pipeline (chunk : buffer) (filters : option (list Codec))
    (compressor : option Codec) (tr : list event) (out : buffer) :
  _encode_chunk chunk filters compressor = (tr, Ok out) ↔
  ∃ mid tr_f,
    filter_chain (default [] filters) chunk tr_f mid ∧
    is_object_kind mid = false ∧
    match compressor with
    | Some c =>
        encode c mid = Some out ∧ tr = tr_f ++ [EvEncode (codec_id c) mid]
    | None => out = mid ∧ tr = tr_f
    end.
Proof.
  rewrite encode_chunk_stages. split.
  - destruct (apply_filters (default [] filters) chunk) as [tr_f [mid|e]]
      eqn:Hf; [|discriminate].
    apply apply_filters_ok in Hf.
    destruct (is_object_kind mid) eqn:Hobj; [discriminate|].
    destruct compressor as [c|].
    + destruct (encode c mid) as [out'|] eqn:Hc; [|discriminate].
      intros [= <- <-]. by exists mid, tr_f.
    + intros [= <- <-]. by exists mid, tr_f.
  - intros (mid & tr_f & Hf & Hobj & Hc). apply apply_filters_ok in Hf.
    rewrite Hf, Hobj. destruct compressor as [c|].
    + destruct Hc as [-> ->]. done.
    + by destruct Hc as [-> ->].
Qed.

(** C5: [_encode_chunk] raises the object-codec [RuntimeError]
    (UnencodableElementKind) exactly when every filter ran and the buffer
    the last one returned is of the object kind; the calls made up to the
    failure are the filter calls and nothing else, so the compressor has not
    been called. *)
Theorem encode_chunk_object_check (chunk : buffer)
    (filters : option (list Codec)) (compressor : option Codec)
    (tr : list event) :
  (∃ e, UnencodableElementKind e ∧
        _encode_chunk chunk filters compressor = (tr, Raise e)) ↔
  ∃ mid,
    filter_chain (default [] filters) chunk tr mid ∧
    is_object_kind mid = true.
Proof.
  rewrite encode_chunk_stages. unfold UnencodableElementKind. split.
  - intros (e & -> & He).
    destruct (apply_filters (default [] filters) chunk) as [tr_f [mid|e]]
      eqn:Hf.
    + apply apply_filters_ok in Hf.
      destruct (is_object_kind mid) eqn:Hobj.
      * injection He as <-. by exists mid.
      * destruct compressor as [c|]; [|discriminate].
        destruct (encode c mid); discriminate.
    + apply apply_filters_raise in Hf as [origin ->]. discriminate.
  - intros (mid & Hf & Hobj). apply apply_filters_ok in Hf.
    rewrite Hf, Hobj. by eexists.
Qed.

(** ** Metadata paths *)

Lemma str_length_app s t :
  String.length (s +:+ t) = (String.length s + String.length t)%nat.
Proof. induction s as [|c s IH]; simpl; [done|]. by rewrite IH. Qed.

Lemma str_app_nil s : "" +:+ s = s.
Proof. reflexivity. Qed.

Lemma str_app_cons c s t : String c s +:+ t = String c (s +:+ t).
Proof. reflexivity. Qed.

(** Two paths with suffixes of the same length agree on the suffix and on
    the variable name. *)
Lemma str_app_suffix s1 : ∀ s2 t1 t2,
  String.length t1 = String.length t2 →
  s1 +:+ t1 = s2 +:+ t2 → s1 = s2 ∧ t1 = t2.
Proof.
  induction s1 as [|a s1 IH]; intros [|b s2] t1 t2 Hlen Heq;
    rewrite ?str_app_nil, ?str_app_cons in Heq.
  - done.
  - subst t1. simpl in Hlen. rewrite str_length_app in Hlen. lia.
  - subst t2. simpl in Hlen. rewrite str_length_app in Hlen. lia.
  - injection Heq as -> Heq. destruct (IH _ _ _ Hlen Heq) as [-> ->]. done.
Qed.

Lemma attrs_path_inj k1 k2 : attrs_path k1 = attrs_path k2 → k1 = k2.
Proof. intros H. by apply str_app_suffix in H as [-> _]. Qed.

Lemma array_path_inj k1 k2 : array_path k1 = array_path k2 → k1 = k2.
Proof. intros H. by apply str_app_suffix in H as [-> _]. Qed.

Lemma attrs_array_path_ne k1 k2 : attrs_path k1 ≠ array_path k2.
Proof. intros H. by apply str_app_suffix in H as [_ ?]. Qed.

(** ** The accessor *)

Lemma build_count_app tr1 tr2 :
  build_count (tr1 ++ tr2) = (build_count tr1 + build_count tr2)%nat.
Proof. induction tr1 as [|ev tr1 IH]; simpl; [done|]. rewrite IH. lia. Qed.

Lemma build_count_tbind {A B} (m : traced A) (k : A → traced B) :
  build_count (tbind m k).1 =
  (build_count m.1 +
   match m.2 with Ok a => build_count (k a).1 | Raise _ => 0 end)%nat.
Proof.
  destruct m as [tr [a|e]]; simpl; [|lia].
  destruct (k a) as [tr' r]. simpl. apply build_count_app.
Qed.

Lemma filter_chain_no_build filters chunk tr out :
  filter_chain filters chunk tr out → build_count tr = 0%nat.
Proof. induction 1; simpl; done. Qed.

Lemma apply_filters_no_build filters : ∀ chunk,
  build_count (apply_filters filters chunk).1 = 0%nat.
Proof.
  induction filters as [|f rest IH]; intros chunk; [done|].
  cbn [apply_filters]. rewrite build_count_tbind. simpl.
  destruct (encode f chunk); simpl; [apply IH | done].
Qed.

Lemma encode_chunk_no_build chunk filters compressor :
  build_count (_encode_chunk chunk filters compressor).1 = 0%nat.
Proof.
  rewrite encode_chunk_stages.
  pose proof (apply_filters_no_build (default [] filters) chunk) as Hf.
  destruct (apply_filters (default [] filters) chunk) as [tr [mid|e]];
    simpl in *; [|done].
  destruct (is_object_kind mid); [done|].
  destruct compressor as [c|]; simpl; [|done].
  rewrite build_count_app, Hf. done.
Qed.

Lemma extract_zarray_lengths da encoding :
  well_formed da →
  ∃ meta,
    extract_zarray da encoding = Ok meta ∧
    length (ZArray.shape meta) = length (DataArray.dims da) ∧
    (length (ZArray.chunks meta) = length (ZArray.shape meta) ↔
     match dict_get (Encoding.chunks encoding) None with
     | Some cs => length cs = length (DataArray.shape da)
     | None => True
     end).
Proof.
  intros [Hdims Hblocks]. unfold extract_zarray.
  destruct (dict_get (Encoding.chunks encoding) None) as [cs|]; simpl.
  - eexists. split; [reflexivity|]. simpl. rewrite normalize_shape_id. done.
  - destruct (DataArray.chunks da) as [blocks|]; simpl.
    + destruct (Hblocks _ eq_refl) as [Hlen Hne].
      rewrite traverse_first_item by done. simpl.
      eexists. split; [reflexivity|]. simpl. rewrite normalize_shape_id.
      rewrite length_fmap. done.
    + eexists. split; [reflexivity|]. simpl. rewrite normalize_shape_id. done.
Qed.

Section AccessorProperties.

(** The canonicalizing encoder, whatever it is. *)
Variable canon : PyVal → PyVal.

Lemma encode_attrs_fmap (attrs : gmap string PyVal) :
  encode_attrs canon attrs = canon <$> attrs.
Proof.
  unfold encode_attrs.
  apply (map_fold_weak_ind (λ r m, r = canon <$> m)).
  - by rewrite fmap_empty.
  - intros k v m r _ ->. by rewrite fmap_insert.
Qed.

Lemma extract_zattrs_insert (da : DataArray.t) :
  extract_zattrs canon da =
  <[_DIMENSION_KEY := VList (VStr <$> DataArray.dims da)]>
    (canon <$> DataArray.attrs da).
Proof. unfold extract_zattrs. by rewrite encode_attrs_fmap. Qed.

(** *** The loop over the variables *)

Lemma zmetadata_loop_other items encoding : ∀ metadata final path,
  zmetadata_loop canon items encoding metadata = Ok final →
  (∀ key, key ∈ items.*1 → path ≠ attrs_path key ∧ path ≠ array_path key) →
  final !! path = metadata !! path.
Proof.
  induction items as [|[k0 da0] rest IH]; intros metadata final path; simpl.
  - by intros [= <-].
  - destruct (extract_zarray da0 (dict_get (encoding !! k0) Encoding.empty)) as [z|e]; simpl;
      [|discriminate].
    intros Hloop Hpath. rewrite (IH _ _ _ Hloop).
    + destruct (Hpath k0) as [Ha Hz]; [apply elem_of_cons; by left|].
      fold (array_path k0) (attrs_path k0).
      by rewrite !lookup_insert_ne.
    + intros key Hkey. apply Hpath. apply elem_of_cons. by right.
Qed.

Lemma zmetadata_loop_lookup items encoding : ∀ metadata final key da,
  NoDup items.*1 →
  zmetadata_loop canon items encoding metadata = Ok final →
  (key, da) ∈ items →
  final !! attrs_path key = Some (Attrs (extract_zattrs canon da)) ∧
  ∃ meta, extract_zarray da (dict_get (encoding !! key) Encoding.empty) = Ok meta ∧
          final !! array_path key = Some (Array meta).
Proof.
  induction items as [|[k0 da0] rest IH]; intros metadata final key da; simpl.
  - intros _ _ Hin. by apply elem_of_nil in Hin.
  - intros [Hk0 Hnd]%NoDup_cons.
    destruct (extract_zarray da0 (dict_get (encoding !! k0) Encoding.empty)) as [z|e] eqn:Hz;
      simpl; [|discriminate].
    intros Hloop [[= -> ->]|Hin]%elem_of_cons; [|by eapply IH].
    assert (∀ path, (path = attrs_path k0 ∨ path = array_path k0) →
              ∀ key, key ∈ rest.*1 →
                path ≠ attrs_path key ∧ path ≠ array_path key) as Hfresh.
    { intros path Hpath key Hkey.
      assert (k0 ≠ key) by (intros ->; done).
      destruct Hpath as [-> | ->]; split; intros Heq.
      - by apply attrs_path_inj in Heq.
      - by apply attrs_array_path_ne in Heq.
      - symmetry in Heq. by apply attrs_array_path_ne in Heq.
      - by apply array_path_inj in Heq. }
    fold (array_path k0) (attrs_path k0) in Hloop.
    rewrite !(zmetadata_loop_other _ _ _ _ _ Hloop) by (apply Hfresh; auto).
    split.
    + rewrite lookup_insert_ne by (intros Heq; symmetry in Heq;
        by apply attrs_array_path_ne in Heq).
      by rewrite lookup_insert_eq.
    + exists z. split; [done|]. by rewrite lookup_insert_eq.
Qed.

Lemma zmetadata_loop_total items encoding : ∀ metadata,
  (∀ key da, (key, da) ∈ items →
     ∃ meta, extract_zarray da (dict_get (encoding !! key) Encoding.empty) = Ok meta) →
  ∃ final, zmetadata_loop canon items encoding metadata = Ok final.
Proof.
  induction items as [|[k0 da0] rest IH]; intros metadata Hok; simpl.
  - by eexists.
  - destruct (Hok k0 da0) as [z ->]; [apply elem_of_cons; by left|]. simpl.
    apply IH. intros key da Hin. apply Hok. apply elem_of_cons. by right.
Qed.

(** *** Registration *)

Lemma init_stages obj name encoding :
  __init__ canon obj name encoding =
  ([EvBuildMetadata],
   match zmetadata_loop canon (map_to_list (Dataset.variables obj))
           (dict_get encoding ∅) (initial_metadata canon obj) with
   | Ok metadata =>
       Ok {| _obj := obj;
             _name := dict_get name "<Dataset rest app>";
             _encoding := dict_get encoding ∅;
             _metadata := ZMetadata.mk zarr_consolidated_format metadata |}
   | Raise e => Raise e
   end).
Proof.
  unfold __init__, get_zmetadata, initial_metadata. simpl.
  by destruct (zmetadata_loop _ _ _ _).
Qed.

Lemma init_build_once obj name encoding tr r :
  __init__ canon obj name encoding = (tr, r) → build_count tr = 1%nat.
Proof. rewrite init_stages. by intros [= <- _]. Qed.

(** C6 (as the code has it): registering a dataset of well-formed
    variables succeeds whatever the encoding overrides are.  In the
    metadata of every variable, [shape] has as many entries as [dims].
    [chunks] has as many entries as [shape] when the chunk sizes come from
    the variable; an override's [chunks] are stored as they are, so with an
    override the lengths agree exactly when the override has one entry per
    dimension. *)
Theorem registration_lengths (obj : Dataset.t) (name : option string)
    (encoding : option (gmap string Encoding.t)) :
  (∀ key da, Dataset.variables obj !! key = Some da → well_formed da) →
  ∃ tr self,
    __init__ canon obj name encoding = (tr, Ok self) ∧
    ∀ key da, Dataset.variables obj !! key = Some da →
      ∃ zattrs meta,
        ZMetadata.metadata (_metadata self) !! attrs_path key
          = Some (Attrs zattrs) ∧
        ZMetadata.metadata (_metadata self) !! array_path key
          = Some (Array meta) ∧
        zattrs !! _DIMENSION_KEY = Some (VList (VStr <$> DataArray.dims da)) ∧
        length (ZArray.shape meta) = length (DataArray.dims da) ∧
        (length (ZArray.chunks meta) = length (ZArray.shape meta) ↔
         match override_chunks (dict_get encoding ∅) key with
         | Some cs => length cs = length (DataArray.shape da)
         | None => True
         end).
Proof.
  intros Hwf. rewrite init_stages.
  destruct (zmetadata_loop_total (map_to_list (Dataset.variables obj))
              (dict_get encoding ∅) (initial_metadata canon obj)) as [final Hloop].
  { intros key da Hin%elem_of_map_to_list.
    destruct (extract_zarray_lengths da
                (dict_get (dict_get encoding ∅ !! key) Encoding.empty)
                (Hwf _ _ Hin)) as (meta & Hmeta & _).
    by exists meta. }
  rewrite Hloop. eexists _, _. split; [reflexivity|]. simpl.
  intros key da Hvar.
  destruct (zmetadata_loop_lookup _ _ _ _ key da
              (NoDup_fst_map_to_list _) Hloop) as (Hattrs & meta & Hmeta & Harr).
  { by apply elem_of_map_to_list. }
  destruct (extract_zarray_lengths da
              (dict_get (dict_get encoding ∅ !! key) Encoding.empty)
              (Hwf _ _ Hvar)) as (meta' & Hmeta' & Hshape & Hchunks).
  rewrite Hmeta in Hmeta'. injection Hmeta' as <-.
  exists (extract_zattrs canon da), meta.
  split; [done|]. split; [done|]. split; [|done].
  rewrite extract_zattrs_insert. apply lookup_insert_eq.
Qed.

(** *** Serving requests *)

Lemma handle_self self req : (handle canon self req).1 = self.
Proof. by destruct req. Qed.

Lemma serve_outputs reqs : ∀ self,
  (serve canon self reqs).1 = self ∧
  (serve canon self reqs).2 = (λ req, (handle canon self req).2) <$> reqs.
Proof.
  induction reqs as [|req reqs IH]; intros self; simpl; [done|].
  pose proof (handle_self self req) as Hself.
  destruct (handle canon self req) as [self1 out]. simpl in Hself. subst self1.
  destruct (IH self) as [Hs Ho].
  destruct (serve canon self reqs) as [self2 outs]. simpl in *. by subst.
Qed.

Lemma get_key_no_build self var chunk :
  build_count (get_key self var chunk).1 = 0%nat.
Proof.
  unfold get_key.
  rewrite build_count_tbind.
  destruct (getitem_var (_obj self) var) as [da|e]; [|done]. cbn -[tbind].
  rewrite build_count_tbind.
  destruct (getitem_arr_meta _ _) as [arr_meta|e]; [|done]. cbn -[tbind].
  rewrite build_count_tbind.
  destruct (get_indexers _ _) as [index|e]; [|done]. cbn -[tbind].
  rewrite build_count_tbind. cbn -[tbind].
  destruct (DataArray.data da index) as [data_chunk|]; [|done].
  rewrite build_count_tbind.
  assert (build_count (materialize var data_chunk).1 = 0%nat) as ->.
  { by destruct data_chunk as [raw|[raw|]]. }
  destruct (materialize var data_chunk).2 as [raw|e]; [|done]. cbn -[tbind].
  rewrite build_count_tbind, encode_chunk_no_build.
  by destruct (_encode_chunk _ _ _).2.
Qed.

Lemma handle_no_build self req :
  build_count (handle canon self req).2.1 = 0%nat.
Proof. destruct req; try done. apply get_key_no_build. Qed.

Lemma serve_no_build self reqs :
  build_count (concat ((serve canon self reqs).2).*1) = 0%nat.
Proof.
  destruct (serve_outputs reqs self) as [_ ->].
  induction reqs as [|req reqs IH]; [done|].
  rewrite !fmap_cons. cbn [concat].
  by rewrite build_count_app, handle_no_build, IH.
Qed.

(** C7: the consolidated document is built once, by the registration; the
    requests served afterwards leave [self._metadata] as it is, every
    ".zmetadata" request is answered with that document, and no request
    builds it again. *)
Theorem zmetadata_built_once (obj : Dataset.t) (name : option string)
    (encoding : option (gmap string Encoding.t)) (tr : list event)
    (self : RestAccessor) (reqs : list request) :
  __init__ canon obj name encoding = (tr, Ok self) →
  (get_zmetadata canon obj (dict_get encoding ∅)).2 = Ok (_metadata self) ∧
  _metadata (serve canon self reqs).1 = _metadata self ∧
  (∀ i, reqs !! i = Some GetZmetadata →
     (serve canon self reqs).2 !! i
       = Some ([], Ok (JsonMetadata (_metadata self)))) ∧
  (∀ i j, reqs !! i = Some GetZmetadata → reqs !! j = Some GetZmetadata →
     (serve canon self reqs).2 !! i = (serve canon self reqs).2 !! j) ∧
  build_count tr = 1%nat ∧
  build_count (tr ++ concat ((serve canon self reqs).2).*1) = 1%nat.
Proof.
  intros Hinit. pose proof (init_build_once _ _ _ _ _ Hinit) as Hone.
  assert (∀ i, reqs !! i = Some GetZmetadata →
            (serve canon self reqs).2 !! i
              = Some ([], Ok (JsonMetadata (_metadata self)))) as Hget.
  { intros i Hi. destruct (serve_outputs reqs self) as [_ ->].
    by rewrite list_lookup_fmap, Hi. }
  split; [|split; [|split; [|split; [|split]]]].
  - unfold __init__ in Hinit.
    destruct (get_zmetadata canon obj (dict_get encoding ∅)) as [tr' [zm|e]];
      simpl in Hinit; [|discriminate].
    by injection Hinit as _ <-.
  - by destruct (serve_outputs reqs self) as [-> _].
  - done.
  - intros i j Hi Hj. etrans; [by apply Hget|]. symmetry. by apply Hget.
  - done.
  - by rewrite build_count_app, serve_no_build, Hone.
Qed.

(** *** Attributes *)

(** C9 (as the code has it): the record holds the dimension names under
    the reserved key, and under every other key exactly the encoded value
    of the variable's attribute of that key, if there is one. *)
Theorem extract_zattrs_entries (da : DataArray.t) :
  extract_zattrs canon da !! _DIMENSION_KEY
    = Some (VList (VStr <$> DataArray.dims da)) ∧
  ∀ k, k ≠ _DIMENSION_KEY →
    extract_zattrs canon da !! k = canon <$> (DataArray.attrs da !! k).
Proof.
  rewrite extract_zattrs_insert. split.
  - apply lookup_insert_eq.
  - intros k Hk. rewrite lookup_insert_ne by done. apply lookup_fmap.
Qed.

(** C10: when the attributes themselves have an entry under the reserved
    key, the record holds the dimension names there and not the encoded
    attribute; no error is raised. *)
Theorem extract_zattrs_reserved_key (da : DataArray.t) (v : PyVal) :
  DataArray.attrs da !! _DIMENSION_KEY = Some v →
  extract_zattrs canon da !! _DIMENSION_KEY
    = Some (VList (VStr <$> DataArray.dims da)) ∧
  (canon v ≠ VList (VStr <$> DataArray.dims da) →
   extract_zattrs canon da !! _DIMENSION_KEY ≠ Some (canon v)).
Proof.
  intros _. rewrite extract_zattrs_insert, lookup_insert_eq.
  split; [done|]. intros Hne [= Heq]. by apply Hne.
Qed.

End AccessorProperties.

(** ** Concrete scenarios *)

(** C6, counterexample: the [4 × 4] variable registered with an override
    of one chunk size; the registration succeeds and the record has two
    entries in [shape] and one in [chunks]. *)
Lemma registration_accepts_short_chunks :
  ∃ tr self meta,
    __init__ encode_zarr_attr_value plain_ds None (Some short_chunks)
      = (tr, Ok self) ∧
    ZMetadata.metadata (_metadata self) !! "v/.zarray" = Some (Array meta) ∧
    ZArray.shape meta = [4; 4] ∧
    ZArray.chunks meta = [2] ∧
    length (ZArray.chunks meta) ≠ length (ZArray.shape meta).
Proof.
  eexists _, _, _. split; [vm_compute; reflexivity|].
  split; [vm_compute; reflexivity|]. 
  split; [reflexivity|]. split; [reflexivity|]. simpl. lia.
Qed.

Lemma registration_lengths_witness :
  ∃ tr self,
    __init__ encode_zarr_attr_value plain_ds None (Some short_chunks)
      = (tr, Ok self) ∧
    ∀ key da, Dataset.variables plain_ds !! key = Some da →
      ∃ zattrs meta,
        ZMetadata.metadata (_metadata self) !! attrs_path key
          = Some (Attrs zattrs) ∧
        ZMetadata.metadata (_metadata self) !! array_path key
          = Some (Array meta) ∧
        zattrs !! _DIMENSION_KEY = Some (VList (VStr <$> DataArray.dims da)) ∧
        length (ZArray.shape meta) = length (DataArray.dims da) ∧
        (length (ZArray.chunks meta) = length (ZArray.shape meta) ↔
         match override_chunks (dict_get (Some short_chunks) ∅) key with
         | Some cs => length cs = length (DataArray.shape da)
         | None => True
         end).
Proof.
  apply (registration_lengths encode_zarr_attr_value plain_ds None
           (Some short_chunks)).
  intros key da Hvar. simpl in Hvar.
  apply lookup_singleton_Some in Hvar as [<- <-].
  split; [reflexivity | intros blocks; discriminate].
Defined.

Lemma zmetadata_built_once_witness :
  ∃ tr self,
    __init__ encode_zarr_attr_value plain_ds None None = (tr, Ok self) ∧
    ((get_zmetadata encode_zarr_attr_value plain_ds (dict_get None ∅)).2
       = Ok (_metadata self) ∧
     _metadata (serve encode_zarr_attr_value self some_requests).1
       = _metadata self ∧
     (∀ i, some_requests !! i = Some GetZmetadata →
        (serve encode_zarr_attr_value self some_requests).2 !! i
          = Some ([], Ok (JsonMetadata (_metadata self)))) ∧
     (∀ i j, some_requests !! i = Some GetZmetadata →
        some_requests !! j = Some GetZmetadata →
        (serve encode_zarr_attr_value self some_requests).2 !! i
          = (serve encode_zarr_attr_value self some_requests).2 !! j) ∧
     build_count tr = 1%nat ∧
     build_count
       (tr ++ concat ((serve encode_zarr_attr_value self some_requests).2).*1)
       = 1%nat).
Proof.
  destruct (__init__ encode_zarr_attr_value plain_ds None None)
    as [tr [self|e]] eqn:Hinit.
  - exists tr, self. split; [reflexivity|].
    apply (zmetadata_built_once encode_zarr_attr_value plain_ds None None
             tr self some_requests Hinit).
  - vm_compute in Hinit. discriminate.
Defined.

(** C9, counterexample: an attribute under the reserved key is in the
    attribute mapping, and its encoded value is not in the record. *)
Lemma extract_zattrs_drops_shadowed :
  DataArray.attrs shadowing_da !! _DIMENSION_KEY = Some (VStr "time") ∧
  extract_zattrs encode_zarr_attr_value shadowing_da !! _DIMENSION_KEY
    ≠ Some (encode_zarr_attr_value (VStr "time")).
Proof.
  split; [by vm_compute|]. intros H. vm_compute in H. discriminate.
Qed.

Lemma extract_zattrs_reserved_key_witness :
  extract_zattrs encode_zarr_attr_value shadowing_da !! _DIMENSION_KEY
    = Some (VList (VStr <$> DataArray.dims shadowing_da)) ∧
  (encode_zarr_attr_value (VStr "time")
     ≠ VList (VStr <$> DataArray.dims shadowing_da) →
   extract_zattrs encode_zarr_attr_value shadowing_da !! _DIMENSION_KEY
     ≠ Some (encode_zarr_attr_value (VStr "time"))).
Proof.
  apply (extract_zattrs_reserved_key encode_zarr_attr_value shadowing_da
           (VStr "time")).
  vm_compute. reflexivity.
Defined.

(** *** The scenario of the specification *)

Example scenario_zarray :
  extract_zarray plain_da square_chunks
  = Ok (ZArray.mk None None [2; 2] "<f8" VNone "C" [4; 4] 2).
Proof. reflexivity. Qed.

Example scenario_zattrs :
  extract_zattrs encode_zarr_attr_value plain_da
  = {[ "units" := VStr "m";
       "_ARRAY_DIMENSIONS" := VList [VStr "x"; VStr "y"] ]}.
Proof. vm_compute. reflexivity. Qed.

Example scenario_first_chunk :
  get_indexers "0.0" [2; 2] = Ok [Slice 0 2; Slice 0 2].
Proof. reflexivity. Qed.

Example scenario_malformed :
  get_indexers "a.b" [2; 2] = Raise (ValueError "a").
Proof. reflexivity. Qed.

(** Two filters and a compressor: the calls, in order, and the result. *)
Example encode_chunk_in_order :
  _encode_chunk (Bytes [])
    (Some [appending "f1" Byte.x01; appending "f2" Byte.x02])
    (Some (appending "z" Byte.x03))
  = ([EvEncode "f1" (Bytes []);
      EvEncode "f2" (Bytes [Byte.x01]);
      EvEncode "z" (Bytes [Byte.x01; Byte.x02])],
     Ok (Bytes [Byte.x01; Byte.x02; Byte.x03])).
Proof. reflexivity. Qed.

(** A filter that yields objects: the compressor is not called. *)
Example encode_chunk_objects :
  _encode_chunk (Bytes []) (Some [as_objects]) (Some (appending "z" Byte.x03))
  = ([EvEncode "as_objects" (Bytes [])],
     Raise (RuntimeError object_codec_msg)).
Proof. reflexivity. Qed.

(** * Further properties of the code *)

(** ** The coordinate resolver *)

(** Along an axis cut in chunks of a positive size, an index lies in the
    range of chunk [k] exactly when [k] is the quotient of the index by the
    chunk size: the ranges of [slice_axis] tile the axis, with no gap and no
    overlap. *)
Theorem slice_axis_covers (c x k : Z) :
  (0 < c)%Z →
  (start (slice_axis k c) ≤ x < stop (slice_axis k c))%Z ↔ k = (x `div` c)%Z.
Proof.
  intros Hc. simpl. split.
  - intros [Hlo Hhi]. apply (Z.div_unique x c k (x - k * c)); lia.
  - intros ->. pose proof (Z.div_mod x c) as Hdm.
    pose proof (Z.mod_pos_bound x c Hc) as Hmod. lia.
Qed.

Lemma slice_axis_covers_witness :
  (start (slice_axis 2 2) ≤ 5 < stop (slice_axis 2 2))%Z ↔ 2 = (5 `div` 2)%Z.
Proof. apply (slice_axis_covers 2 5 2). lia. Defined.

Lemma traverse_first_raise {A B} (f : A → result B) xs e :
  traverse f xs = Raise e ↔
  ∃ n x, xs !! n = Some x ∧ f x = Raise e ∧
    ∀ m x', (m < n)%nat → xs !! m = Some x' → ∃ y, f x' = Ok y.
Proof.
  induction xs as [|x0 xs IH]; simpl.
  - split; [discriminate | intros (n & x & Hx & _)]. by rewrite lookup_nil in Hx.
  - destruct (f x0) as [y0|e0] eqn:Hf0; simpl.
    + split.
      * destruct (traverse f xs) as [ys|e'] eqn:Htr; simpl; [discriminate|].
        intros [= ->]. destruct (proj1 IH eq_refl) as (n & x & Hx & Hfx & Hbefore).
        exists (S n), x. split; [done|]. split; [done|].
        intros [|m] x' Hm Hx'; simpl in Hx'.
        -- injection Hx' as <-. by exists y0.
        -- eapply Hbefore; [|done]. lia.
      * intros ([|n] & x & Hx & Hfx & Hbefore); simpl in Hx.
        -- injection Hx as <-. congruence.
        -- rewrite (proj2 IH); [done|]. exists n, x. split; [done|].
           split; [done|]. intros m x' Hm Hx'. apply (Hbefore (S m)); [lia|done].
    + split.
      * intros [= ->]. exists 0%nat, x0. split; [done|]. split; [done|]. lia.
      * intros ([|n] & x & Hx & Hfx & Hbefore); simpl in Hx.
        -- injection Hx as <-. congruence.
        -- destruct (Hbefore 0%nat x0) as [y Hy]; [lia|done|]. congruence.
Qed.

(** [get_indexers] reports the first malformed token: it raises
    [ValueError(tok)] exactly when [tok] is a token that [int] rejects, it is
    paired with a chunk size, and [int] accepts every token before it. *)
Theorem get_indexers_first_malformed (key : string) (chunks : list Z)
    (e : exn) :
  get_indexers key chunks = Raise e ↔
  ∃ (n : nat) (tok : string),
    str_split "." key !! n = Some tok ∧ (n < length chunks)%nat ∧
    py_int tok = None ∧ e = ValueError tok ∧
    ∀ (m : nat) (tok' : string),
      (m < n)%nat → str_split "." key !! m = Some tok' → is_Some (py_int tok').
Proof.
  unfold get_indexers. rewrite traverse_first_raise. split.
  - intros (n & [tok c] & Hlk & Hf & Hbefore).
    apply lookup_zip_with_Some in Hlk as (tok0 & c0 & [= <- <-] & Htok & Hc).
    destruct (int tok) as [v|e'] eqn:Hint; simpl in Hf; [discriminate|].
    injection Hf as <-. apply int_raise in Hint as [-> Hnone].
    exists n, tok. split; [done|]. split; [by eapply lookup_lt_Some|].
    split; [done|]. split; [done|].
    intros m tok' Hm Htok'.
    destruct (lookup_lt_is_Some_2 chunks m) as [c' Hc'].
    { apply lookup_lt_Some in Hc. lia. }
    destruct (Hbefore m (tok', c')) as [y Hy]; [done| |].
    { apply lookup_zip_with_Some. by exists tok', c'. }
    unfold int in Hy. by destruct (py_int tok').
  - intros (n & tok & Htok & Hn & Hnone & -> & Hbefore).
    destruct (lookup_lt_is_Some_2 chunks n Hn) as [c Hc].
    exists n, (tok, c). split; [|split].
    + apply lookup_zip_with_Some. by exists tok, c.
    + unfold int. by rewrite Hnone.
    + intros m [tok' c'] Hm Hlk.
      apply lookup_zip_with_Some in Hlk as (? & ? & [= <- <-] & Htok' & _).
      destruct (Hbefore m tok' Hm Htok') as [v Hv].
      unfold int. rewrite Hv. simpl. by eexists.
Qed.

(** Only the first [len(chunks)] tokens count: two coordinate strings that
    agree on them resolve alike, whatever follows. *)
Theorem get_indexers_surplus_ignored (key1 key2 : string) (chunks : list Z) :
  take (length chunks) (str_split "." key1)
    = take (length chunks) (str_split "." key2) →
  get_indexers key1 chunks = get_indexers key2 chunks.
Proof.
  intros Htake. unfold get_indexers. cbv zeta.
  rewrite <- (zip_with_take_l pair (str_split "." key1) chunks).
  rewrite <- (zip_with_take_l pair (str_split "." key2) chunks).
  by rewrite Htake.
Qed.

Lemma get_indexers_surplus_ignored_witness :
  get_indexers "1.2" [2; 3] = get_indexers "1.2.x.-7" [2; 3].
Proof. apply (get_indexers_surplus_ignored "1.2" "1.2.x.-7" [2; 3]). reflexivity. Defined.

Lemma zero_tokens (n : nat) :
  Forall2 nat_literal (replicate n "0") (replicate n 0%Z).
Proof. induction n; constructor; [by split|done]. Qed.

Lemma zip_with_slice_zero (shape : list Z) :
  zip_with slice_axis (replicate (length shape) 0%Z) shape
  = (λ s, Slice 0 s) <$> shape.
Proof.
  induction shape as [|s shape IH]; simpl; [done|]. rewrite IH.
  f_equal. unfold slice_axis. f_equal. by destruct s.
Qed.

(** A variable that is not chunked and has no [chunks] override is one
    chunk: the coordinate of zeros, one per dimension, resolves to the full
    extent of every axis. *)
Theorem unchunked_single_chunk (da : DataArray.t) (encoding : Encoding.t) :
  DataArray.chunks da = None →
  dict_get (Encoding.chunks encoding) None = None →
  ∃ meta,
    extract_zarray da encoding = Ok meta ∧
    get_indexers (str_join "." (replicate (length (DataArray.shape da)) "0"))
      (ZArray.chunks meta)
    = Ok ((λ s, Slice 0 s) <$> DataArray.shape da).
Proof.
  intros Hnative Hoverride. unfold extract_zarray.
  rewrite Hoverride, Hnative. simpl. eexists. split; [reflexivity|]. simpl.
  unfold get_indexers. destruct (DataArray.shape da) as [|s shape] eqn:Hshape.
  - reflexivity.
  - rewrite (str_split_join _ _ (zero_tokens (length (s :: shape)))) by done.
    rewrite (resolve_nat_literals _ _ (zero_tokens (length (s :: shape)))).
    by rewrite zip_with_slice_zero.
Qed.

Lemma unchunked_single_chunk_witness :
  ∃ meta,
    extract_zarray plain_da Encoding.empty = Ok meta ∧
    get_indexers
      (str_join "." (replicate (length (DataArray.shape plain_da)) "0"))
      (ZArray.chunks meta)
    = Ok ((λ s, Slice 0 s) <$> DataArray.shape plain_da).
Proof.
  apply (unchunked_single_chunk plain_da Encoding.empty); reflexivity.
Defined.

(** ** The metadata extractor *)

Lemma traverse_first_item_raise (blocks : list (list Z)) (e : exn) :
  traverse first_item blocks = Raise e ↔ e = IndexError ∧ [] ∈ blocks.
Proof.
  assert (∀ e', traverse first_item blocks = Raise e' →
            e' = IndexError ∧ [] ∈ blocks) as Hinv.
  { intros e' (c & Hc & Hraise)%traverse_raise_from.
    destruct c as [|x c]; [|discriminate]. by injection Hraise as <-. }
  split; [apply Hinv|]. intros [-> Hin].
  destruct (proj2 (traverse_raise_iff first_item blocks)) as [e' He'].
  { exists []. split; [done|]. by eexists. }
  by destruct (Hinv _ He') as [-> _].
Qed.

Lemma extract_zarray_raise (da : DataArray.t) (encoding : Encoding.t)
    (e : exn) :
  extract_zarray da encoding = Raise e ↔
  e = IndexError ∧ dict_get (Encoding.chunks encoding) None = None ∧
  ∃ blocks, DataArray.chunks da = Some blocks ∧ [] ∈ blocks.
Proof.
  unfold extract_zarray.
  destruct (dict_get (Encoding.chunks encoding) None) as [cs|]; simpl.
  - split; [discriminate | by intros (_ & ? & _)].
  - destruct (DataArray.chunks da) as [blocks|]; simpl.
    + destruct (traverse first_item blocks) as [cs|e'] eqn:Htr; simpl.
      * split; [discriminate|]. intros (-> & _ & blocks' & [= <-] & Hin).
        assert (traverse first_item blocks = Raise IndexError) as Hr
          by by apply traverse_first_item_raise.
        congruence.
      * apply traverse_first_item_raise in Htr as [-> Hin]. split.
        -- intros [= <-]. split; [done|]. split; [done|]. by exists blocks.
        -- by intros (-> & _).
    + split; [discriminate | by intros (_ & _ & ? & ? & _)].
Qed.

(** [extract_zarray] has one way to fail: with no [chunks] override, on a
    chunked variable one of whose dimensions has no block, [c[0]] raises
    [IndexError].  With a [chunks] override it cannot fail. *)
Theorem extract_zarray_fails_iff (da : DataArray.t) (encoding : Encoding.t)
    (e : exn) :
  extract_zarray da encoding = Raise e ↔
  e = IndexError ∧ dict_get (Encoding.chunks encoding) None = None ∧
  ∃ blocks, DataArray.chunks da = Some blocks ∧ [] ∈ blocks.
Proof. apply extract_zarray_raise. Qed.

(** The codecs of the produced record: the override's entry if the key is
    there, even when its value is [None] (which switches the variable's own
    codec off), else the entry of the variable's encoding, else [None].  The
    other fields are the variable's dtype and shape, a null fill value,
    order "C" and format 2. *)
Theorem extract_zarray_codecs (da : DataArray.t) (encoding : Encoding.t)
    (meta : ZArray.t) :
  extract_zarray da encoding = Ok meta →
  ZArray.compressor meta =
    match Encoding.compressor encoding with
    | Some c => c
    | None => match Encoding.compressor (DataArray.encoding da) with
              | Some c => c
              | None => None
              end
    end ∧
  ZArray.filters meta =
    match Encoding.filters encoding with
    | Some fs => fs
    | None => match Encoding.filters (DataArray.encoding da) with
              | Some fs => fs
              | None => None
              end
    end ∧
  ZArray.dtype meta = DataArray.dtype da ∧
  ZArray.shape meta = DataArray.shape da ∧
  ZArray.fill_value meta = VNone ∧
  ZArray.order meta = "C" ∧
  ZArray.zarr_format meta = 2.
Proof.
  unfold extract_zarray.
  destruct (match dict_get (Encoding.chunks encoding) None with
            | Some cs => Ok cs
            | None => _
            end) as [cs|e]; simpl; [|discriminate].
  intros [= <-]. simpl. rewrite normalize_shape_id.
  by destruct (Encoding.compressor encoding), (Encoding.filters encoding).
Qed.

Lemma extract_zarray_codecs_witness :
  ZArray.compressor compressed_meta =
    match Encoding.compressor no_compressor with
    | Some c => c
    | None => match Encoding.compressor (DataArray.encoding compressed_da) with
              | Some c => c
              | None => None
              end
    end ∧
  ZArray.filters compressed_meta =
    match Encoding.filters no_compressor with
    | Some fs => fs
    | None => match Encoding.filters (DataArray.encoding compressed_da) with
              | Some fs => fs
              | None => None
              end
    end ∧
  ZArray.dtype compressed_meta = DataArray.dtype compressed_da ∧
  ZArray.shape compressed_meta = DataArray.shape compressed_da ∧
  ZArray.fill_value compressed_meta = VNone ∧
  ZArray.order compressed_meta = "C" ∧
  ZArray.zarr_format compressed_meta = 2.
Proof.
  apply (extract_zarray_codecs compressed_da no_compressor compressed_meta).
  reflexivity.
Defined.

(** ** Registration *)

(** The paths of the dataset's own records are not paths of a variable. *)
Lemma top_level_paths (key : string) :
  attrs_key ≠ attrs_path key ∧ attrs_key ≠ array_path key ∧
  group_meta_key ≠ attrs_path key ∧ group_meta_key ≠ array_path key.
Proof.
  repeat split; intros Heq; apply (f_equal String.length) in Heq;
    unfold attrs_path, array_path in Heq; rewrite str_length_app in Heq;
    simpl in Heq; lia.
Qed.

Section Registration.

Variable canon : PyVal → PyVal.

Lemma zmetadata_loop_dom items encoding : ∀ metadata final path,
  zmetadata_loop canon items encoding metadata = Ok final →
  is_Some (final !! path) →
  is_Some (metadata !! path) ∨
  ∃ key, key ∈ items.*1 ∧ (path = attrs_path key ∨ path = array_path key).
Proof.
  induction items as [|[k0 da0] rest IH]; intros metadata final path; simpl.
  - intros [= <-] ?. by left.
  - destruct (extract_zarray da0 (dict_get (encoding !! k0) Encoding.empty))
      as [z|e]; simpl; [|discriminate].
    intros Hloop Hsome. fold (attrs_path k0) (array_path k0) in Hloop.
    destruct (IH _ _ _ Hloop Hsome) as [Hin|(key & Hkey & Hpath)].
    + apply lookup_insert_is_Some in Hin as [<-|[_ Hin]].
      { right. exists k0. split; [apply elem_of_cons; by left | by right]. }
      apply lookup_insert_is_Some in Hin as [<-|[_ Hin]].
      { right. exists k0. split; [apply elem_of_cons; by left | by left]. }
      by left.
    + right. exists key. split; [apply elem_of_cons; by right | done].
Qed.

Lemma zmetadata_loop_raise items encoding : ∀ metadata e,
  zmetadata_loop canon items encoding metadata = Raise e →
  ∃ key da, (key, da) ∈ items ∧
    extract_zarray da (dict_get (encoding !! key) Encoding.empty) = Raise e.
Proof.
  induction items as [|[k0 da0] rest IH]; intros metadata e; simpl;
    [discriminate|].
  destruct (extract_zarray da0 (dict_get (encoding !! k0) Encoding.empty))
    as [z|e0] eqn:Hz; simpl.
  - intros (key & da & Hin & Hraise)%IH.
    exists key, da. split; [apply elem_of_cons; by right | done].
  - intros [= <-]. exists k0, da0. split; [apply elem_of_cons; by left | done].
Qed.

Lemma zmetadata_loop_ext items enc1 enc2 : ∀ metadata,
  (∀ key da, (key, da) ∈ items → enc1 !! key = enc2 !! key) →
  zmetadata_loop canon items enc1 metadata
  = zmetadata_loop canon items enc2 metadata.
Proof.
  induction items as [|[k0 da0] rest IH]; intros metadata Hagree; simpl;
    [done|].
  rewrite (Hagree k0 da0) by (apply elem_of_cons; by left).
  destruct (extract_zarray da0 _) as [z|e]; simpl; [|done].
  apply IH. intros key da Hin. eapply Hagree. apply elem_of_cons. by right.
Qed.

Lemma init_ok obj name encoding tr self :
  __init__ canon obj name encoding = (tr, Ok self) →
  tr = [EvBuildMetadata] ∧ _obj self = obj ∧
  _encoding self = dict_get encoding ∅ ∧
  ZMetadata.zarr_consolidated_format (_metadata self)
    = zarr_consolidated_format ∧
  zmetadata_loop canon (map_to_list (Dataset.variables obj))
    (dict_get encoding ∅) (initial_metadata canon obj)
  = Ok (ZMetadata.metadata (_metadata self)).
Proof.
  rewrite init_stages.
  destruct (zmetadata_loop _ _ _ _) as [final|e]; [|discriminate].
  by intros [= <- <-].
Qed.

(** What the registered document holds: format 1, the dataset's own
    ".zattrs" and ".zgroup" (the records the two routes of the same names
    compute), and the two records of every variable; it has no other key.
    No variable name can displace the dataset's own records. *)
Theorem registration_document (obj : Dataset.t) (name : option string)
    (encoding : option (gmap string Encoding.t)) (tr : list event)
    (self : RestAccessor) :
  __init__ canon obj name encoding = (tr, Ok self) →
  ZMetadata.zarr_consolidated_format (_metadata self) = 1 ∧
  ZMetadata.metadata (_metadata self) !! attrs_key
    = Some (Attrs (get_zattrs canon obj)) ∧
  ZMetadata.metadata (_metadata self) !! group_meta_key
    = Some (Group get_zgroup) ∧
  ∀ path,
    is_Some (ZMetadata.metadata (_metadata self) !! path) ↔
    path = attrs_key ∨ path = group_meta_key ∨
    ∃ key, is_Some (Dataset.variables obj !! key) ∧
           (path = attrs_path key ∨ path = array_path key).
Proof.
  intros (_ & _ & _ & Hfmt & Hloop)%init_ok.
  assert (∀ path, (path = attrs_key ∨ path = group_meta_key) →
            ZMetadata.metadata (_metadata self) !! path
            = initial_metadata canon obj !! path) as Htop.
  { intros path Hpath. apply (zmetadata_loop_other _ _ _ _ _ _ Hloop).
    intros key _. destruct (top_level_paths key) as (? & ? & ? & ?).
    by destruct Hpath as [-> | ->]. }
  split; [done|]. split; [|split].
  - rewrite Htop by by left. unfold initial_metadata.
    rewrite lookup_insert_ne by done. apply lookup_insert_eq.
  - rewrite Htop by by right. unfold initial_metadata. apply lookup_insert_eq.
  - intros path. split.
    + intros Hsome.
      destruct (zmetadata_loop_dom _ _ _ _ _ Hloop Hsome)
        as [Hin|(key & Hkey & Hpath)].
      * unfold initial_metadata in Hin.
        apply lookup_insert_is_Some in Hin as [<-|[_ Hin]]; [by right; left|].
        apply lookup_insert_is_Some in Hin as [<-|[_ Hin]]; [by left|].
        rewrite lookup_empty in Hin. by destruct Hin.
      * right. right. exists key. split; [|done].
        apply list_elem_of_fmap in Hkey as ([k da] & -> & Hin).
        apply elem_of_map_to_list in Hin. by exists da.
    + intros [->|[->|(key & [da Hda] & Hpath)]].
      * rewrite Htop by by left. unfold initial_metadata.
        rewrite lookup_insert_ne by done. by rewrite lookup_insert_eq.
      * rewrite Htop by by right. unfold initial_metadata.
        by rewrite lookup_insert_eq.
      * destruct (zmetadata_loop_lookup canon _ _ _ _ key da
                    (NoDup_fst_map_to_list _) Hloop)
          as (Hattrs & meta & _ & Harr); [by apply elem_of_map_to_list|].
        destruct Hpath as [-> | ->]; [by rewrite Hattrs | by rewrite Harr].
Qed.

(** Registration fails exactly when the extraction of some variable fails;
    it then fails with that [IndexError], after the one run of
    [get_zmetadata], and there is no accessor. *)
Theorem registration_fails_iff (obj : Dataset.t) (name : option string)
    (encoding : option (gmap string Encoding.t)) :
  ((∃ tr e, __init__ canon obj name encoding = (tr, Raise e)) ↔
   ∃ key da e,
     Dataset.variables obj !! key = Some da ∧
     extract_zarray da (dict_get (dict_get encoding ∅ !! key) Encoding.empty)
       = Raise e) ∧
  ∀ tr e, __init__ canon obj name encoding = (tr, Raise e) →
    tr = [EvBuildMetadata] ∧ e = IndexError.
Proof.
  rewrite init_stages. split; [split|].
  - intros (tr & e & Hinit).
    destruct (zmetadata_loop _ _ _ _) as [final|e'] eqn:Hloop; [discriminate|].
    apply zmetadata_loop_raise in Hloop as (key & da & Hin & Hraise).
    exists key, da, e'. split; [by apply elem_of_map_to_list | done].
  - intros (key & da & e & Hvar & Hraise).
    destruct (zmetadata_loop _ _ _ _) as [final|e'] eqn:Hloop; [|by eauto].
    destruct (zmetadata_loop_lookup canon _ _ _ _ key da
                (NoDup_fst_map_to_list _) Hloop)
      as (_ & meta & Hmeta & _); [by apply elem_of_map_to_list|].
    congruence.
  - intros tr e.
    destruct (zmetadata_loop _ _ _ _) as [final|e'] eqn:Hloop; [discriminate|].
    intros [= <- <-]. split; [done|].
    apply zmetadata_loop_raise in Hloop as (key & da & _ & Hraise).
    by apply extract_zarray_raise in Hraise as [-> _].
Qed.

(** Overrides given for names that are not variables of the dataset are
    never read: two encodings that agree on the variables give the same
    document. *)
Theorem registration_ignores_other_overrides (obj : Dataset.t)
    (enc1 enc2 : gmap string Encoding.t) :
  (∀ key, is_Some (Dataset.variables obj !! key) → enc1 !! key = enc2 !! key) →
  get_zmetadata canon obj enc1 = get_zmetadata canon obj enc2.
Proof.
  intros Hagree. unfold get_zmetadata.
  rewrite (zmetadata_loop_ext _ enc1 enc2); [done|].
  intros key da Hin%elem_of_map_to_list. apply Hagree. by exists da.
Qed.

(** After a successful registration every variable of the dataset has its
    ".zarray" record, the one [extract_zarray] gives with the variable's
    override: the two lookups at the head of [get_key] succeed together. *)
Theorem registered_variable_has_record (obj : Dataset.t)
    (name : option string) (encoding : option (gmap string Encoding.t))
    (tr : list event) (self : RestAccessor) (var : string)
    (da : DataArray.t) :
  __init__ canon obj name encoding = (tr, Ok self) →
  Dataset.variables obj !! var = Some da →
  ∃ meta,
    extract_zarray da (dict_get (dict_get encoding ∅ !! var) Encoding.empty)
      = Ok meta ∧
    getitem_var (_obj self) var = Ok da ∧
    getitem_arr_meta (_metadata self) (var +:+ "/" +:+ array_meta_key)
      = Ok meta.
Proof.
  intros (_ & Hobj & _ & _ & Hloop)%init_ok Hvar.
  destruct (zmetadata_loop_lookup canon _ _ _ _ var da
              (NoDup_fst_map_to_list _) Hloop)
    as (_ & meta & Hmeta & Harr); [by apply elem_of_map_to_list|].
  exists meta. split; [done|]. split.
  - unfold getitem_var. by rewrite Hobj, Hvar.
  - unfold getitem_arr_meta. fold (array_path var). by rewrite Harr.
Qed.

End Registration.

Lemma registration_document_witness :
  ZMetadata.zarr_consolidated_format (_metadata plain_accessor) = 1 ∧
  ZMetadata.metadata (_metadata plain_accessor) !! attrs_key
    = Some (Attrs (get_zattrs encode_zarr_attr_value plain_ds)) ∧
  ZMetadata.metadata (_metadata plain_accessor) !! group_meta_key
    = Some (Group get_zgroup) ∧
  ∀ path,
    is_Some (ZMetadata.metadata (_metadata plain_accessor) !! path) ↔
    path = attrs_key ∨ path = group_meta_key ∨
    ∃ key, is_Some (Dataset.variables plain_ds !! key) ∧
           (path = attrs_path key ∨ path = array_path key).
Proof.
  apply (registration_document encode_zarr_attr_value plain_ds None None
           [EvBuildMetadata] plain_accessor).
  vm_compute. reflexivity.
Defined.

Lemma registration_ignores_other_overrides_witness :
  get_zmetadata encode_zarr_attr_value plain_ds ∅
  = get_zmetadata encode_zarr_attr_value plain_ds {[ "ghost" := square_chunks ]}.
Proof.
  apply (registration_ignores_other_overrides encode_zarr_attr_value plain_ds
           ∅ {[ "ghost" := square_chunks ]}).
  intros key [da Hvar]. simpl in Hvar.
  apply lookup_singleton_Some in Hvar as [<- _]. vm_compute. reflexivity.
Defined.

Lemma registered_variable_has_record_witness :
  ∃ meta,
    extract_zarray plain_da
      (dict_get
         (dict_get (None : option (gmap string Encoding.t)) ∅ !! "v")
         Encoding.empty) = Ok meta ∧
    getitem_var (_obj plain_accessor) "v" = Ok plain_da ∧
    getitem_arr_meta (_metadata plain_accessor) ("v" +:+ "/" +:+ array_meta_key)
      = Ok meta.
Proof.
  apply (registered_variable_has_record encode_zarr_attr_value plain_ds None
           None [EvBuildMetadata] plain_accessor "v" plain_da).
  - vm_compute. reflexivity.
  - vm_compute. reflexivity.
Defined.

(** ** Chunk requests *)

Lemma get_indexers_raise_malformed key chunks e :
  get_indexers key chunks = Raise e → MalformedCoordinate e.
Proof.
  unfold get_indexers. intros ([i c] & _ & He)%traverse_raise_from.
  destruct (int i) as [n|e'] eqn:Hi; simpl in He; [discriminate|].
  injection He as <-. apply int_raise in Hi as [-> _]. by exists i.
Qed.

(** [get_key], once its two lookups have succeeded. *)
Lemma get_key_resolved self var chunk da meta :
  Dataset.variables (_obj self) !! var = Some da →
  getitem_arr_meta (_metadata self) (var +:+ "/" +:+ array_meta_key) = Ok meta →
  get_key self var chunk =
  match get_indexers chunk (ZArray.chunks meta) with
  | Raise e => ([], Raise e)
  | Ok index =>
      match DataArray.data da index with
      | None => ([EvGetitem var index], Raise (Foreign "data"))
      | Some a =>
          match materialize var a with
          | (tr_m, Raise e) => (EvGetitem var index :: tr_m, Raise e)
          | (tr_m, Ok raw) =>
              match _encode_chunk (Bytes raw) (ZArray.filters meta)
                      (ZArray.compressor meta) with
              | (tr_e, Ok out) =>
                  (EvGetitem var index :: tr_m ++ tr_e, make_response out)
              | (tr_e, Raise e) => (EvGetitem var index :: tr_m ++ tr_e, Raise e)
              end
          end
      end
  end.
Proof.
  intros Hvar Hmeta. unfold get_key, getitem_var. rewrite Hvar. simpl.
  rewrite Hmeta. simpl.
  destruct (get_indexers chunk (ZArray.chunks meta)) as [index|e]; simpl;
    [|done].
  unfold getitem_data.
  destruct (DataArray.data da index) as [a|]; simpl; [|done].
  destruct (materialize var a) as [tr_m [raw|e]]; simpl; [|done].
  destruct (_encode_chunk _ _ _) as [tr_e [out|e]]; simpl;
    by rewrite ?app_nil_r.
Qed.

(** For a variable of the dataset, a chunk string the resolver rejects is
    answered with that [ValueError] before the array engine or any codec is
    called. *)
Theorem get_key_malformed_coordinate (self : RestAccessor)
    (var chunk : string) (da : DataArray.t) (meta : ZArray.t) (e : exn) :
  Dataset.variables (_obj self) !! var = Some da →
  getitem_arr_meta (_metadata self) (var +:+ "/" +:+ array_meta_key) = Ok meta →
  get_indexers chunk (ZArray.chunks meta) = Raise e →
  get_key self var chunk = ([], Raise e) ∧ MalformedCoordinate e.
Proof.
  intros Hvar Hmeta Hidx. split; [|by eapply get_indexers_raise_malformed].
  by rewrite (get_key_resolved _ _ _ _ _ Hvar Hmeta), Hidx.
Qed.

Lemma get_key_malformed_coordinate_witness :
  get_key plain_accessor "v" "a.b" = ([], Raise (ValueError "a")) ∧
  MalformedCoordinate (ValueError "a").
Proof.
  apply (get_key_malformed_coordinate plain_accessor "v" "a.b" plain_da
           (ZArray.mk None None [4; 4] "<f8" VNone "C" [4; 4] 2)).
  - vm_compute. reflexivity.
  - vm_compute. reflexivity.
  - reflexivity.
Defined.

(** A chunk request succeeds exactly when the array engine returns the
    slice, its materialization succeeds and the encoding succeeds with
    [bytes]: an array left by a filter is not a body [Response] takes.  The
    calls are then: one slicing with the resolved ranges, one [compute()] if
    and only if the slice is a dask array, then the codecs; the body is the
    encoded [tobytes()] of the slice and the media type is
    "application/octet-stream". *)
Theorem get_key_success_iff (self : RestAccessor) (var chunk : string)
    (da : DataArray.t) (meta : ZArray.t) (index : list slice)
    (tr : list event) (resp : response) :
  Dataset.variables (_obj self) !! var = Some da →
  getitem_arr_meta (_metadata self) (var +:+ "/" +:+ array_meta_key) = Ok meta →
  get_indexers chunk (ZArray.chunks meta) = Ok index →
  get_key self var chunk = (tr, Ok resp) ↔
  ∃ a raw tr_e body,
    DataArray.data da index = Some a ∧
    (a = NumpyArray raw ∧ tr = EvGetitem var index :: tr_e ∨
     a = DaskArray (Some raw) ∧
     tr = EvGetitem var index :: EvCompute var :: tr_e) ∧
    _encode_chunk (Bytes raw) (ZArray.filters meta) (ZArray.compressor meta)
      = (tr_e, Ok (Bytes body)) ∧
    resp = Response (Bytes body) "application/octet-stream".
Proof.
  intros Hvar Hmeta Hidx.
  rewrite (get_key_resolved _ _ _ _ _ Hvar Hmeta), Hidx. split.
  - destruct (DataArray.data da index) as [a|]; [|discriminate].
    destruct a as [raw|[raw|]]; simpl; [| |discriminate].
    + destruct (_encode_chunk _ _ _) as [tr_e [[body|dt body]|e]] eqn:Henc;
        simpl; [|discriminate|discriminate].
      intros [= <- <-]. exists (NumpyArray raw), raw, tr_e, body.
      split; [done|]. split; [by left|]. done.
    + destruct (_encode_chunk _ _ _) as [tr_e [[body|dt body]|e]] eqn:Henc;
        simpl; [|discriminate|discriminate].
      intros [= <- <-]. exists (DaskArray (Some raw)), raw, tr_e, body.
      split; [done|]. split; [by right|]. done.
  - intros (a & raw & tr_e & body & -> & [[-> ->]|[-> ->]] & Henc & ->);
      simpl; by rewrite Henc.
Qed.

Lemma get_key_success_iff_witness :
  get_key plain_accessor "v" "0.0"
    = ([EvGetitem "v" [Slice 0 4; Slice 0 4]],
       Ok (Response (Bytes (replicate 128 Byte.x00))
             "application/octet-stream")) ↔
  ∃ a raw tr_e body,
    DataArray.data plain_da [Slice 0 4; Slice 0 4] = Some a ∧
    (a = NumpyArray raw ∧
     [EvGetitem "v" [Slice 0 4; Slice 0 4]]
       = EvGetitem "v" [Slice 0 4; Slice 0 4] :: tr_e ∨
     a = DaskArray (Some raw) ∧
     [EvGetitem "v" [Slice 0 4; Slice 0 4]]
       = EvGetitem "v" [Slice 0 4; Slice 0 4] :: EvCompute "v" :: tr_e) ∧
    _encode_chunk (Bytes raw) None None = (tr_e, Ok (Bytes body)) ∧
    Response (Bytes (replicate 128 Byte.x00)) "application/octet-stream"
      = Response (Bytes body) "application/octet-stream".
Proof.
  apply (get_key_success_iff plain_accessor "v" "0.0" plain_da
           (ZArray.mk None None [4; 4] "<f8" VNone "C" [4; 4] 2)).
  - vm_compute. reflexivity.
  - vm_compute. reflexivity.
  - reflexivity.
Defined.

(** The first chunk of the scenario, served in full: 4 × 4 items of 8
    bytes. *)
Example scenario_first_chunk_served :
  get_key plain_accessor "v" "0.0"
  = ([EvGetitem "v" [Slice 0 4; Slice 0 4]],
     Ok (Response (Bytes (replicate 128 Byte.x00)) "application/octet-stream")).
Proof. vm_compute. reflexivity. Qed.

(** A filter that leaves an array, and no compressor: the encoding succeeds
    and the construction of the response fails. *)
Example get_key_array_body :
  tbind (_encode_chunk (Bytes []) (Some [as_array]) None)
    (λ echunk, tlift (make_response echunk))
  = ([EvEncode "as_array" (Bytes [])], Raise (AttributeError "encode")).
Proof. reflexivity. Qed.

(** A variable stored without filters and without a compressor is served
    as it is: the body is the [tobytes()] of the materialized slice, and no
    codec is called; bytes are never of the object kind, so the object check
    cannot fail. *)
Theorem get_key_plain_bytes (self : RestAccessor) (var chunk : string)
    (da : DataArray.t) (meta : ZArray.t) (index : list slice) (a : array)
    (tr_m : list event) (raw : list Byte.byte) :
  Dataset.variables (_obj self) !! var = Some da →
  getitem_arr_meta (_metadata self) (var +:+ "/" +:+ array_meta_key) = Ok meta →
  get_indexers chunk (ZArray.chunks meta) = Ok index →
  truthy (ZArray.filters meta) = false →
  ZArray.compressor meta = None →
  DataArray.data da index = Some a →
  materialize var a = (tr_m, Ok raw) →
  get_key self var chunk
  = (EvGetitem var index :: tr_m,
     Ok (Response (Bytes raw) "application/octet-stream")).
Proof.
  intros Hvar Hmeta Hidx Hf Hc Ha Hm.
  rewrite (get_key_resolved _ _ _ _ _ Hvar Hmeta), Hidx, Ha, Hm, Hc.
  rewrite encode_chunk_stages.
  assert (default [] (ZArray.filters meta) = []) as ->.
  { by destruct (ZArray.filters meta) as [[|f fs]|]. }
  simpl. by rewrite app_nil_r.
Qed.

Lemma get_key_plain_bytes_witness :
  get_key plain_accessor "v" "1.0"
  = (EvGetitem "v" [Slice 4 8; Slice 0 4] :: [],
     Ok (Response (Bytes []) "application/octet-stream")).
Proof.
  apply (get_key_plain_bytes plain_accessor "v" "1.0" plain_da
           (ZArray.mk None None [4; 4] "<f8" VNone "C" [4; 4] 2)
           [Slice 4 8; Slice 0 4] (NumpyArray []) [] []).
  - vm_compute. reflexivity.
  - vm_compute. reflexivity.
  - reflexivity.
  - reflexivity.
  - reflexivity.
  - reflexivity.
  - reflexivity.
Defined.

(** ** The codec invoker *)

Lemma apply_filters_app fs1 fs2 : ∀ chunk,
  apply_filters (fs1 ++ fs2) chunk
  = tbind (apply_filters fs1 chunk) (apply_filters fs2).
Proof.
  induction fs1 as [|f fs1 IH]; intros chunk; simpl.
  - by destruct (apply_filters fs2 chunk).
  - unfold codec_encode. destruct (encode f chunk) as [mid|]; simpl; [|done].
    rewrite IH. destruct (apply_filters fs1 mid) as [tr1 [m|e]]; simpl; [|done].
    by destruct (apply_filters fs2 m).
Qed.

(** A filter that raises stops the pipeline: the filters after it and the
    compressor are not called, and the exception of the filter is the
    outcome. *)
Theorem encode_chunk_failing_filter (chunk : buffer) (pre : list Codec)
    (f : Codec) (post : list Codec) (compressor : option Codec)
    (tr : list event) (mid : buffer) :
  filter_chain pre chunk tr mid →
  encode f mid = None →
  _encode_chunk chunk (Some (pre ++ f :: post)) compressor
  = (tr ++ [EvEncode (codec_id f) mid], Raise (Foreign (codec_id f))).
Proof.
  intros Hpre%apply_filters_ok Hf. rewrite encode_chunk_stages. simpl.
  rewrite apply_filters_app, Hpre. simpl. unfold codec_encode.
  by rewrite Hf.
Qed.

Lemma encode_chunk_failing_filter_witness :
  _encode_chunk (Bytes [])
    (Some ([appending "f1" Byte.x01] ++ refusing :: [appending "f2" Byte.x02]))
    (Some (appending "z" Byte.x03))
  = ([EvEncode "f1" (Bytes [])] ++ [EvEncode (codec_id refusing) (Bytes [Byte.x01])],
     Raise (Foreign (codec_id refusing))).
Proof.
  apply (encode_chunk_failing_filter (Bytes []) [appending "f1" Byte.x01]
           refusing [appending "f2" Byte.x02] (Some (appending "z" Byte.x03))
           [EvEncode "f1" (Bytes [])] (Bytes [Byte.x01])).
  - eapply chain_step; [reflexivity | apply chain_done].
  - reflexivity.
Defined.

(** Filter lists compose: running the filters [fs1 ++ fs2] is running [fs1]
    and then, on what they return, the pipeline with [fs2].  The object
    check is made once, after the last filter: an object buffer between two
    filters is not an error. *)
Theorem encode_chunk_compose (chunk : buffer) (fs1 fs2 : list Codec)
    (compressor : option Codec) (tr1 : list event) (mid : buffer) :
  filter_chain fs1 chunk tr1 mid →
  _encode_chunk chunk (Some (fs1 ++ fs2)) compressor
  = (tr1 ++ (_encode_chunk mid (Some fs2) compressor).1,
     (_encode_chunk mid (Some fs2) compressor).2).
Proof.
  intros Hfs1%apply_filters_ok. rewrite !encode_chunk_stages. simpl.
  rewrite apply_filters_app, Hfs1. simpl.
  destruct (apply_filters fs2 mid) as [tr2 [out|e]]; simpl; [|done].
  destruct (is_object_kind out); [done|].
  destruct compressor as [c|]; simpl; [|done]. by rewrite app_assoc.
Qed.

Lemma encode_chunk_compose_witness :
  _encode_chunk (Bytes []) (Some ([as_objects] ++ [as_bytes])) None
  = ([EvEncode "as_objects" (Bytes [])]
       ++ (_encode_chunk (Ndarray object_dtype []) (Some [as_bytes]) None).1,
     (_encode_chunk (Ndarray object_dtype []) (Some [as_bytes]) None).2).
Proof.
  apply (encode_chunk_compose (Bytes []) [as_objects] [as_bytes] None
           [EvEncode "as_objects" (Bytes [])] (Ndarray object_dtype [])).
  eapply chain_step; [reflexivity | apply chain_done].
Defined.

Lemma apply_filters_calls fs : ∀ chunk,
  ∃ called rest,
    fs = called ++ rest ∧
    Forall2 call_of (apply_filters fs chunk).1 called ∧
    ∀ out, (apply_filters fs chunk).2 = Ok out → rest = [].
Proof.
  induction fs as [|f fs IH]; intros chunk; simpl.
  - exists [], []. split; [done|]. split; [constructor | done].
  - unfold codec_encode. destruct (encode f chunk) as [mid|]; simpl.
    + destruct (IH mid) as (called & rest & -> & Hcalls & Hrest).
      destruct (apply_filters (called ++ rest) mid) as [tr r]. simpl in *.
      exists (f :: called), rest. split; [done|]. split; [|done].
      constructor; [by exists chunk | done].
    + exists [f], fs. split; [done|]. split; [|discriminate].
      constructor; [by exists chunk | constructor].
Qed.

(** The calls [_encode_chunk] makes follow the pipeline, filters in the
    declared order and then the compressor: whatever the outcome, the calls
    made are one call to each codec of an initial segment of the pipeline,
    in that order; when a result is returned they are one call to each codec
    of the whole pipeline, and nothing else is called. *)
Theorem encode_chunk_calls (chunk : buffer) (filters : option (list Codec))
    (compressor : option Codec) :
  ∃ called rest,
    pipeline filters compressor = called ++ rest ∧
    Forall2 call_of (_encode_chunk chunk filters compressor).1 called ∧
    ∀ out, (_encode_chunk chunk filters compressor).2 = Ok out → rest = [].
Proof.
  rewrite encode_chunk_stages. unfold pipeline.
  destruct (apply_filters_calls (default [] filters) chunk)
    as (called & rest & Hfs & Hcalls & Hrest).
  destruct (apply_filters (default [] filters) chunk) as [tr [mid|e]];
    simpl in *.
  - rewrite (Hrest mid eq_refl), app_nil_r in Hfs. subst called.
    destruct (is_object_kind mid); simpl.
    + eexists _, _. split; [reflexivity|]. split; [done | discriminate].
    + destruct compressor as [c|]; simpl.
      * exists (default [] filters ++ [c]), []. split; [by rewrite app_nil_r|].
        split; [|done]. apply Forall2_app; [done|].
        constructor; [by exists mid | constructor].
      * exists (default [] filters), []. split; [done|]. split; done.
  - exists called, (rest ++ match compressor with Some c => [c] | None => [] end).
    split; [by rewrite Hfs, app_assoc|]. split; [done | discriminate].
Qed.

(** ** Dataset attributes and the list of keys *)

Section Routes.

Variable canon : PyVal → PyVal.


(** The "/keys" route lists the names of the variables of the dataset, each
    once, and calls no collaborator. *)
Theorem list_keys_variables (self : RestAccessor) :
  ∃ keys,
    (handle canon self ListKeys).2 = ([], Ok (JsonKeys keys)) ∧
    NoDup keys ∧
    ∀ k, k ∈ keys ↔ is_Some (Dataset.variables (_obj self) !! k).
Proof.
  exists (map_to_list (Dataset.variables (_obj self))).*1.
  split; [done|]. split; [apply NoDup_fst_map_to_list|].
  intros k. rewrite list_elem_of_fmap. split.
  - intros ([k' da] & -> & Hin%elem_of_map_to_list). by exists da.
  - intros [da Hda]. exists (k, da). split; [done|].
    by apply elem_of_map_to_list.
Qed.

End Routes.


(** ** Requests for names that are not variables *)

Section UnknownNames.

Variable canon : PyVal → PyVal.

(** The registered document has no ".zarray" record under a name that is
    not a variable of the dataset. *)
Lemma registered_no_record obj name encoding tr self var :
  __init__ canon obj name encoding = (tr, Ok self) →
  Dataset.variables obj !! var = None →
  ZMetadata.metadata (_metadata self) !! array_path var = None.
Proof.
  intros (_ & _ & _ & _ & Hloop)%init_ok Hvar.
  apply eq_None_not_Some. intros Hsome.
  destruct (zmetadata_loop_dom canon _ _ _ _ _ Hloop Hsome)
    as [Hin|(key & Hkey & Hpath)].
  - destruct (top_level_paths var) as (_ & Hattrs & _ & Hgroup).
    unfold initial_metadata in Hin.
    apply lookup_insert_is_Some in Hin as [Heq|[_ Hin]]; [done|].
    apply lookup_insert_is_Some in Hin as [Heq|[_ Hin]]; [done|].
    rewrite lookup_empty in Hin. by destruct Hin.
  - destruct Hpath as [Heq|Heq].
    + symmetry in Heq. by apply attrs_array_path_ne in Heq.
    + apply array_path_inj in Heq as ->.
      apply list_elem_of_fmap in Hkey as ([k da] & -> & Hin).
      apply elem_of_map_to_list in Hin. simpl in Hvar. congruence.
Qed.

(** C8 (as the code has it): on a registered accessor, a request for a name
    that is not a variable of the dataset fails whatever the chunk string
    is, and before the coordinate is resolved or anything is sliced: the
    trace is empty.  The exception is the one [self._obj[var]] raises; when
    xarray makes a virtual variable of the name, it is the [KeyError] of the
    document, which has no ".zarray" record for it.  So the failure is a
    [KeyError] (UnknownVariable) whenever the failures of the dataset lookup
    are. *)
Theorem get_key_unknown_variable (obj : Dataset.t) (name : option string)
    (encoding : option (gmap string Encoding.t)) (tr : list event)
    (self : RestAccessor) (var chunk : string) :
  __init__ canon obj name encoding = (tr, Ok self) →
  Dataset.variables obj !! var = None →
  ∃ e,
    get_key self var chunk = ([], Raise e) ∧
    match Dataset.virtual obj var with
    | Raise e' => e = e'
    | Ok _ => e = KeyError (var +:+ "/" +:+ array_meta_key)
    end ∧
    ((∀ e', Dataset.virtual obj var = Raise e' → UnknownVariable e') →
     UnknownVariable e).
Proof.
  intros Hinit Hvar.
  pose proof (registered_no_record _ _ _ _ _ _ Hinit Hvar) as Hnone.
  apply init_ok in Hinit as (_ & Hobj & _).
  unfold get_key, getitem_var. rewrite Hobj, Hvar.
  destruct (Dataset.virtual obj var) as [da|e'] eqn:Hvirtual; simpl.
  - unfold getitem_arr_meta. fold (array_path var). rewrite Hnone. simpl.
    eexists. split; [reflexivity|]. split; [done|]. intros _. by eexists.
  - exists e'. split; [done|]. split; [done|]. intros Hkey. by apply Hkey.
Qed.

End UnknownNames.

Lemma get_key_unknown_variable_witness :
  ∃ e,
    get_key plain_accessor "x" "0" = ([], Raise e) ∧
    match Dataset.virtual plain_ds "x" with
    | Raise e' => e = e'
    | Ok _ => e = KeyError ("x" +:+ "/" +:+ array_meta_key)
    end ∧
    ((∀ e', Dataset.virtual plain_ds "x" = Raise e' → UnknownVariable e') →
     UnknownVariable e).
Proof.
  apply (get_key_unknown_variable encode_zarr_attr_value plain_ds None None
           [EvBuildMetadata] plain_accessor "x" "0").
  - vm_compute. reflexivity.
  - vm_compute. reflexivity.
Defined.

(** C8, counterexample: "v.foo" is not a variable of the registered
    dataset; xarray looks the attribute [foo] up on the variable "v", and
    the request fails with that [AttributeError], which is not a
    [KeyError]. *)
Lemma get_key_unknown_attribute_error :
  __init__ encode_zarr_attr_value plain_ds None None
    = ([EvBuildMetadata], Ok plain_accessor) ∧
  Dataset.variables plain_ds !! "v.foo" = None ∧
  get_key plain_accessor "v.foo" "0" = ([], Raise (AttributeError "foo")) ∧
  ¬ UnknownVariable (AttributeError "foo").
Proof.
  split; [vm_compute; reflexivity|]. split; [vm_compute; reflexivity|].
  split; [vm_compute; reflexivity|]. intros [key Hkey]. discriminate.
Qed.

(** The three outcomes for a name that is not a variable: unknown to
    xarray, a dimension without coordinate, an attribute the variable does
    not have. *)
Example get_key_unknown_names :
  get_key plain_accessor "nonexistent" "a.b"
    = ([], Raise (KeyError "nonexistent")) ∧
  get_key plain_accessor "x" "0" = ([], Raise (KeyError "x/.zarray")) ∧
  get_key plain_accessor "v.foo" "0" = ([], Raise (AttributeError "foo")).
Proof. repeat split; vm_compute; reflexivity. Qed.
